(** * build_careers.py: the matching-and-derivation core

    A shallow embedding of [src/build_careers.py]: the key normaliser
    [norm], the two source extractors [parse_ooh] and [load_oews], the
    education cost estimator [edu_cost] and the aggregation loop of [main].

    Conventions.
    - A Python [str] is a Rocq [string]; its characters are read as the
      code points 0..255.  The Python builtins the program relies on
      ([str.lower], [str.strip], [re.sub] with the pattern [\s+], the
      substring test [in], [urllib.parse.quote], [float]) are modelled on
      that range.
    - A Python [dict] is a [gmap] keyed by strings.
    - [None] is [None]; a value that may be [None] is an [option].
    - A raised exception is the [Raise] branch of [result]. *)

From Stdlib Require Import Ascii QArith Qabs.
From stdpp Require Import gmap strings list fin_maps.

Local Open Scope bool_scope.

(** ** Python builtins on strings *)

Module Py.

(** [str.isspace] on one character, which is also what [\s] matches in a
    [str] pattern and what [str.strip] removes: TAB, LF, VT, FF, CR, the
    four separators FS, GS, RS, US, the space, NEL and the no-break
    space. *)
Definition is_space (c : ascii) : bool :=
  let n := nat_of_ascii c in
  (Nat.leb 9 n && Nat.leb n 13) || (Nat.leb 28 n && Nat.leb n 32)
  || Nat.eqb n 133 || Nat.eqb n 160.

(** [str.lower] on one character: A-Z and the Latin-1 capitals
    (U+00C0..U+00DE without the multiplication sign U+00D7). *)
Definition lower_char (c : ascii) : ascii :=
  let n := nat_of_ascii c in
  if (Nat.leb 65 n && Nat.leb n 90)
     || (Nat.leb 192 n && Nat.leb n 222 && negb (Nat.eqb n 215))
  then ascii_of_nat (n + 32) else c.

Fixpoint lower (s : string) : string :=
  match s with
  | EmptyString => EmptyString
  | String c s' => String (lower_char c) (lower s')
  end.

Fixpoint lstrip (s : string) : string :=
  match s with
  | EmptyString => EmptyString
  | String c s' => if is_space c then lstrip s' else s
  end.

Fixpoint rstrip (s : string) : string :=
  match s with
  | EmptyString => EmptyString
  | String c s' =>
      match rstrip s' with
      | EmptyString => if is_space c then EmptyString else String c EmptyString
      | r => String c r
      end
  end.

(** [s.strip()] *)
Definition strip (s : string) : string := rstrip (lstrip s).

(** [re.sub(r"\s+", " ", s)]: every maximal run of whitespace becomes one
    space.  A whitespace character followed by another one is dropped;
    the last character of the run is the one replaced. *)
Fixpoint sub_ws (s : string) : string :=
  match s with
  | EmptyString => EmptyString
  | String c s' =>
      if is_space c then
        match s' with
        | String c' _ =>
            if is_space c' then sub_ws s' else String " "%char (sub_ws s')
        | EmptyString => String " "%char EmptyString
        end
      else String c (sub_ws s')
  end.

(** [s.startswith(p)] *)
Fixpoint starts_with (p s : string) : bool :=
  match p, s with
  | EmptyString, _ => true
  | String _ _, EmptyString => false
  | String a p', String b s' =>
      if decide (a = b) then starts_with p' s' else false
  end.

(** [p in s] *)
Fixpoint contains (p s : string) : bool :=
  starts_with p s
  || match s with
     | EmptyString => false
     | String _ s' => contains p s'
     end.

(** [bool(s)] for a string: the empty string is falsy. *)
Definition truthy (s : string) : bool :=
  match s with EmptyString => false | String _ _ => true end.

(** [x or y] where [x] may be [None] and [y] is a string. *)
Definition or_str (x : option string) (y : string) : string :=
  match x with
  | Some s => if truthy s then s else y
  | None => y
  end.

(** ** [urllib.parse.quote(s)] with its default [safe="/"] *)

Definition hex_digit (n : nat) : ascii :=
  if Nat.ltb n 10 then ascii_of_nat (48 + n) else ascii_of_nat (55 + n).

(** The bytes that [quote] keeps: letters, digits, [_.-~] and [/]. *)
Definition quote_safe (n : nat) : bool :=
  (Nat.leb 65 n && Nat.leb n 90) || (Nat.leb 97 n && Nat.leb n 122)
  || (Nat.leb 48 n && Nat.leb n 57)
  || Nat.eqb n 95 || Nat.eqb n 46 || Nat.eqb n 45 || Nat.eqb n 126
  || Nat.eqb n 47.

Definition percent (n : nat) : string :=
  String "%"%char
    (String (hex_digit (n / 16)) (String (hex_digit (n mod 16)) EmptyString)).

(** UTF-8 bytes of one code point below 256. *)
Definition utf8 (n : nat) : list nat :=
  if Nat.ltb n 128 then [n] else [192 + n / 64; 128 + n mod 64].

Definition quote_byte (n : nat) : string :=
  if quote_safe n then String (ascii_of_nat n) EmptyString else percent n.

Fixpoint quote (s : string) : string :=
  match s with
  | EmptyString => EmptyString
  | String c s' =>
      foldr (fun b acc => quote_byte b +:+ acc) (quote s')
            (utf8 (nat_of_ascii c))
  end.

(** ** [float(x)] on a string

    [float] accepts, after stripping whitespace (see [float_strip]), an
    optional sign followed
    by [inf], [infinity] or [nan] in any letter case, or by a decimal
    number: digits with an optional point, an optional exponent, and
    single underscores between digits. *)

Definition is_digit (c : ascii) : bool :=
  let n := nat_of_ascii c in Nat.leb 48 n && Nat.leb n 57.

(** What is left of [s] after the tail [(["_"] digit)*] of a digit part. *)
Fixpoint digits_rest (s : string) : string :=
  match s with
  | EmptyString => EmptyString
  | String c s' =>
      if is_digit c then digits_rest s'
      else if decide (c = "_"%char) then
        match s' with
        | String d s'' => if is_digit d then digits_rest s'' else s
        | EmptyString => s
        end
      else s
  end.

(** A digit part at the head of [s], and what follows it. *)
Definition digitpart (s : string) : option string :=
  match s with
  | String c s' => if is_digit c then Some (digits_rest s') else None
  | EmptyString => None
  end.

Definition drop_sign (s : string) : string :=
  match s with
  | String c s' =>
      if decide (c = "+"%char) then s'
      else if decide (c = "-"%char) then s' else s
  | EmptyString => s
  end.

(** [number ::= [digitpart] "." digitpart | digitpart ["."]] *)
Definition number (s : string) : option string :=
  match digitpart s with
  | Some r =>
      match r with
      | String c r' =>
          if decide (c = "."%char)
          then Some (default r' (digitpart r'))
          else Some r
      | EmptyString => Some r
      end
  | None =>
      match s with
      | String c r' => if decide (c = "."%char) then digitpart r' else None
      | EmptyString => None
      end
  end.

(** [exponent ::= ("e" | "E") [sign] digitpart], optional. *)
Definition exponent (s : string) : option string :=
  match s with
  | String c s' =>
      if decide (lower_char c = "e"%char) then digitpart (drop_sign s')
      else Some s
  | EmptyString => Some s
  end.

(** The whitespace [float] removes at both ends: TAB, LF, VT, FF, CR and
    the space, and the whitespace beyond U+007F, which is turned into
    spaces first.  The separators U+001C..U+001F are not removed. *)
Definition is_float_space (c : ascii) : bool :=
  let n := nat_of_ascii c in
  (Nat.leb 9 n && Nat.leb n 13) || Nat.eqb n 32
  || Nat.eqb n 133 || Nat.eqb n 160.

Fixpoint lstrip_by (f : ascii -> bool) (s : string) : string :=
  match s with
  | EmptyString => EmptyString
  | String c s' => if f c then lstrip_by f s' else s
  end.

Fixpoint rstrip_by (f : ascii -> bool) (s : string) : string :=
  match s with
  | EmptyString => EmptyString
  | String c s' =>
      match rstrip_by f s' with
      | EmptyString => if f c then EmptyString else String c EmptyString
      | r => String c r
      end
  end.

Definition float_strip (s : string) : string :=
  rstrip_by is_float_space (lstrip_by is_float_space s).

Definition is_float_literal (s : string) : bool :=
  let t := drop_sign (float_strip s) in
  let l := lower t in
  if decide (l = "inf") then true
  else if decide (l = "infinity") then true
  else if decide (l = "nan") then true
  else match number t with
       | Some r =>
           match exponent r with
           | Some EmptyString => true
           | _ => false
           end
       | None => false
       end.

End Py.

(** ** Key normaliser *)

(** [norm(s) = re.sub(r"\s+", " ", s.lower().strip())] *)
Definition norm (s : string) : string := Py.sub_ws (Py.strip (Py.lower s)).

(** Observations on a string used to state the normal form. *)

Definition starts_ws (s : string) : bool :=
  match s with
  | EmptyString => false
  | String c _ => Py.is_space c
  end.

Fixpoint ends_ws (s : string) : bool :=
  match s with
  | EmptyString => false
  | String c EmptyString => Py.is_space c
  | String _ s' => ends_ws s'
  end.

(** Two whitespace characters in a row somewhere in [s]. *)
Fixpoint has_ws_pair (s : string) : bool :=
  match s with
  | EmptyString => false
  | String c s' => (Py.is_space c && starts_ws s') || has_ws_pair s'
  end.

(** The maximal whitespace-free pieces of [s], as [s.split()] gives them. *)
Fixpoint words (s : string) : list string :=
  match s with
  | EmptyString => []
  | String c s' =>
      if Py.is_space c then words s'
      else if starts_ws s' then String c EmptyString :: words s'
      else match words s' with
           | w :: ws => String c w :: ws
           | [] => [String c EmptyString]
           end
  end.

(** [" ".join(ws)] *)
Fixpoint join_sp (ws : list string) : string :=
  match ws with
  | [] => EmptyString
  | [w] => w
  | w :: ws' => w +:+ String " "%char (join_sp ws')
  end.


(** ** Exceptions *)

Inductive exn :=
| IndexError
| KeyError
| ValueError
| TypeError
| OverflowError.

Inductive result (A : Type) :=
| Ok (a : A)
| Raise (e : exn).
Arguments Ok {A} a.
Arguments Raise {A} e.

Global Instance result_ret : MRet result := fun A a => Ok a.

Global Instance result_bind : MBind result := fun A B k m =>
  match m with
  | Ok a => k a
  | Raise e => Raise e
  end.

Definition raises {A : Type} (m : result A) : bool :=
  match m with Ok _ => false | Raise _ => true end.

(** ** Occupation profiles: [parse_ooh] *)

(** One [occupation] element of the XML tree, as [findtext] sees it: the
    text of the first child with that tag, [None] when there is no such
    child. *)
Record occupation := {
  occ_title : option string;
  occ_summary : option string;
  occ_education : option string;
  occ_entry_level_education : option string;
  occ_url : option string
}.

Module Profile.
Record t := mk {
  title : string;
  summary : option string;
  entry_education : option string;
  ooh_url : option string
}.
End Profile.

(** [re.sub(r"\s+", " ", s.strip())] *)
Definition squeeze (s : string) : string := Py.sub_ws (Py.strip s).

(** The stripped title of an entry; entries with an empty one are skipped. *)
Definition occ_key_title (occ : occupation) : string :=
  Py.strip (Py.or_str (occ_title occ) "").

Definition profile_of (occ : occupation) : Profile.t :=
  let summary :=
    match occ_summary occ with
    | Some s => if Py.truthy s then Some (squeeze s) else Some s
    | None => None
    end in
  let edu :=
    Py.or_str (occ_education occ) (Py.or_str (occ_entry_level_education occ) "") in
  let edu := if Py.truthy edu then Some (squeeze edu) else None in
  let url := Py.or_str (occ_url occ) "" in
  let url := if Py.truthy url then Some (Py.strip url) else None in
  Profile.mk (occ_key_title occ) summary edu url.

(** The body of the loop over [root.findall(".//occupation")]. *)
Definition parse_ooh_step (out : gmap string Profile.t) (occ : occupation)
  : gmap string Profile.t :=
  let title := occ_key_title occ in
  if negb (Py.truthy title) then out
  else <[norm title := profile_of occ]> out.

Definition parse_ooh (occs : list occupation) : gmap string Profile.t :=
  fold_left parse_ooh_step occs ∅.

(** ** Wage statistics: [load_oews] *)

(** A non-missing spreadsheet cell as [pandas.read_excel] delivers it: a
    number (int, float or bool), a text, or a date. *)
Inductive value :=
| VNumber (q : Q)
| VText (s : string)
| VDate (serial : Z).

(** A cell; [None] is a missing one (NaN, None, NaT), the cells for which
    [pd.notna] is false. *)
Definition cell : Type := option value.

(** The result of [float(x)].  The rounding to binary64 is not modelled: the
    result records what it was converted from. *)
Inductive pyfloat :=
| FloatOfNumber (q : Q)
| FloatOfText (s : string).

(** The least magnitude that does not fit a float: a Python int at or
    beyond it rounds to 2^1024 and [float] raises [OverflowError].  A float
    is always below it. *)
Definition float_overflow_bound : Z := (2 ^ 1024 - 2 ^ 970)%Z.

Definition float_overflows (q : Q) : bool :=
  Qle_bool (inject_Z float_overflow_bound) (Qabs q).

(** [float(x)] for a non-missing cell. *)
Definition py_float (v : value) : result pyfloat :=
  match v with
  | VNumber q =>
      if float_overflows q then Raise OverflowError else Ok (FloatOfNumber q)
  | VText s =>
      if Py.is_float_literal s then Ok (FloatOfText s) else Raise ValueError
  | VDate _ => Raise TypeError
  end.

Module Wage.
Record t := mk {
  p25 : option pyfloat;
  median : option pyfloat
}.
End Wage.

(** The table after [read_excel]: the column labels (already [str(c)]) and
    the rows of cells. *)
Record dataframe := {
  columns : list string;
  data : list (list cell)
}.

(** A row as [iterrows] yields it: a Series indexed by the column labels.
    Every row has one cell per column; a short row is padded with missing
    cells. *)
Definition series : Type := list (string * cell).

Fixpoint align (cols : list string) (cells : list cell) : series :=
  match cols with
  | [] => []
  | c :: cs => (c, default None (head cells)) :: align cs (tail cells)
  end.

(** What indexing a Series by a label gives: nothing when the label is not
    in the index, the cell when it occurs once, and a sub-Series when the
    label is duplicated. *)
Inductive item :=
| Absent
| Scalar (c : cell)
| SubSeries (cs : list cell).

Definition series_get (label : string) (r : series) : item :=
  match filter (fun p => p.1 = label) r with
  | [] => Absent
  | [p] => Scalar p.2
  | ps => SubSeries (ps.*2)
  end.

Definition is_title_col (c : string) : bool :=
  Py.contains "occupation title" c.

Definition is_p25_col (c : string) : bool :=
  Py.contains "annual 25th percentile" c
  || (Py.contains "25" c && Py.contains "annual" c).

Definition is_med_col (c : string) : bool :=
  Py.contains "annual median" c
  || (Py.contains "median" c && Py.contains "annual" c).

(** [next((c for c in df.columns if ...), None)] *)
Definition p25_col (cols : list string) : option string :=
  List.find is_p25_col cols.

Definition med_col (cols : list string) : option string :=
  List.find is_med_col cols.

(** [next((c for c in df.columns if ...), df.columns[0])]: the default is
    evaluated before the search, and indexing an empty index raises. *)
Definition title_col (cols : list string) : result string :=
  first ← match cols with
           | [] => Raise IndexError
           | c :: _ => Ok c
           end;
  Ok (default first (List.find is_title_col cols)).

(** [float(r[col]) if col and pd.notna(r[col]) else None] *)
Definition wage_field (col : option string) (r : series)
  : result (option pyfloat) :=
  match col with
  | None => Ok None
  | Some c =>
      if negb (Py.truthy c) then Ok None
      else match series_get c r with
           | Absent => Raise KeyError
           | SubSeries _ => Raise ValueError
           | Scalar None => Ok None
           | Scalar (Some v) => x ← py_float v; Ok (Some x)
           end
  end.

(** [t = r.get(title_col)] together with the test [isinstance(t, str)]. *)
Definition row_title (tcol : string) (r : series) : option string :=
  match series_get tcol r with
  | Scalar (Some (VText t)) => Some t
  | _ => None
  end.

(** The body of the loop over [df.iterrows()]. *)
Definition load_oews_step (tcol : string) (pcol mcol : option string)
    (out : gmap string Wage.t) (r : series) : result (gmap string Wage.t) :=
  match row_title tcol r with
  | None => Ok out
  | Some t =>
      p ← wage_field pcol r;
      m ← wage_field mcol r;
      Ok (<[norm t := Wage.mk p m]> out)
  end.

Fixpoint load_oews_rows (tcol : string) (pcol mcol : option string)
    (rows : list series) (out : gmap string Wage.t)
  : result (gmap string Wage.t) :=
  match rows with
  | [] => Ok out
  | r :: rows' =>
      out' ← load_oews_step tcol pcol mcol out r;
      load_oews_rows tcol pcol mcol rows' out'
  end.

Definition load_oews (df : dataframe) : result (gmap string Wage.t) :=
  let cols := norm <$> columns df in
  tcol ← title_col cols;
  load_oews_rows tcol (p25_col cols) (med_col cols)
                 (align cols <$> data df) ∅.

(** The column rules as the specification words them: the full phrase is
    searched over the whole column list first, and the pair of substrings
    only when no column contains the phrase. *)
Definition p25_col_two_phase (cols : list string) : option string :=
  match List.find (Py.contains "annual 25th percentile") cols with
  | Some c => Some c
  | None =>
      List.find (fun c => Py.contains "25" c && Py.contains "annual" c) cols
  end.

Definition med_col_two_phase (cols : list string) : option string :=
  match List.find (Py.contains "annual median") cols with
  | Some c => Some c
  | None =>
      List.find (fun c => Py.contains "median" c && Py.contains "annual" c) cols
  end.

(** The second pattern of each wage column rule on its own. *)
Definition has_25_annual (c : string) : bool :=
  Py.contains "25" c && Py.contains "annual" c.

Definition has_median_annual (c : string) : bool :=
  Py.contains "median" c && Py.contains "annual" c.

(** Whether processing the row [r] raises: the row has a text title and one
    of its two wage fields cannot be computed. *)
Definition row_raises (tcol : string) (pcol mcol : option string)
    (r : series) : bool :=
  match row_title tcol r with
  | None => false
  | Some _ => raises (wage_field pcol r) || raises (wage_field mcol r)
  end.

(** ** Education cost and the aggregation loop of [main] *)

Module Cost.
Record t := mk {
  years : Z;
  total_tuition_fees : Z;
  note : string
}.
End Cost.

Module Career.
Record bls := mk_bls {
  summary : option string;
  entry_education : option string;
  ooh_url : string
}.
Record pay := mk_pay {
  starting_proxy_annual : option pyfloat;
  median_annual : option pyfloat
}.
Record t := mk {
  title : string;
  bls_of : bls;
  pay_of : pay;
  education_cost : option Cost.t
}.
End Career.

Definition TARGET_TITLES : list string := [
  "Software Developers";
  "Registered Nurses";
  "Accountants and Auditors";
  "Elementary School Teachers, Except Special Education";
  "Electricians";
  "Plumbers, Pipefitters, and Steamfitters";
  "Web Developers";
  "Computer Systems Analysts";
  "Physical Therapist Assistants";
  "Occupational Therapy Assistants";
  "Dental Hygienists";
  "Radiologic Technologists and Technicians";
  "Project Management Specialists";
  "Graphic Designers";
  "Market Research Analysts and Marketing Specialists";
  "Construction Managers";
  "Carpenters";
  "Firefighters";
  "Police and Sheriff's Patrol Officers";
  "Environmental Scientists and Specialists, Including Health"
].

(** The f-string of [main]. *)
Definition fallback_url (title : string) : string :=
  "https://www.bls.gov/ooh/occupation-finder.htm?search=" +:+ Py.quote title.

Section Careers.

(** The two tuition constants of the module; the source sets both to 0
    and asks for them to be updated every year. *)
Variables MI_PUBLIC_2YR MI_PUBLIC_4YR : Z.

Definition edu_cost (entry_edu : option string) : option Cost.t :=
  let e := Py.lower (Py.or_str entry_edu "") in
  if negb (Py.truthy e) then None
  else if Py.contains "associate" e then
    Some (Cost.mk 2 (MI_PUBLIC_2YR * 2)
            "Community college estimate (tuition+fees only).")
  else if Py.contains "bachelor" e then
    Some (Cost.mk 4 (MI_PUBLIC_4YR * 4)
            "Public 4-year in-state estimate (tuition+fees only).")
  else if Py.contains "master" e then
    Some (Cost.mk 6 (MI_PUBLIC_4YR * 6)
            "Very rough estimate (tuition+fees only).")
  else if Py.contains "doctoral" e || Py.contains "professional" e then
    Some (Cost.mk 8 (MI_PUBLIC_4YR * 8)
            "Very rough estimate (tuition+fees only).")
  else if Py.contains "postsecondary nondegree" e then
    Some (Cost.mk 1 MI_PUBLIC_2YR
            "Certificate/trade estimate (tuition+fees only).")
  else if Py.contains "high school" e || Py.contains "no formal" e then
    Some (Cost.mk 0 0
            "No college required; training may still cost money.")
  else None.

(** The record appended for one target title; [estimate] is the function
    the name [edu_cost] is bound to when the loop runs. *)
Definition career_with (estimate : option string -> option Cost.t)
    (ooh : gmap string Profile.t) (wages : gmap string Wage.t)
    (title : string) : Career.t :=
  let k := norm title in
  let rec := default (Profile.mk title None None None) (ooh !! k) in
  let w := default (Wage.mk None None) (wages !! k) in
  Career.mk
    (Profile.title rec)
    (Career.mk_bls
       (Profile.summary rec)
       (Profile.entry_education rec)
       (match Profile.ooh_url rec with
        | Some u =>
            if Py.truthy u then u else fallback_url (Profile.title rec)
        | None => fallback_url (Profile.title rec)
        end))
    (Career.mk_pay (Wage.p25 w) (Wage.median w))
    (estimate (Profile.entry_education rec)).

(** [careers = []; for title in targets: careers.append({...})] *)
Definition aggregate_with (estimate : option string -> option Cost.t)
    (targets : list string)
    (ooh : gmap string Profile.t) (wages : gmap string Wage.t)
  : list Career.t :=
  fold_left (fun careers title =>
               careers ++ [career_with estimate ooh wages title])
            targets [].

Definition career := career_with edu_cost.
Definition aggregate := aggregate_with edu_cost.

(** The list that [main] serialises. *)
Definition main_careers (ooh : gmap string Profile.t)
    (wages : gmap string Wage.t) : list Career.t :=
  aggregate TARGET_TITLES ooh wages.

End Careers.

(** The values the module sets. *)
Definition MI_PUBLIC_2YR : Z := 0.
Definition MI_PUBLIC_4YR : Z := 0.

(** The [careers] list that [main] writes for the two mappings it built. *)
Definition main (ooh : gmap string Profile.t) (wages : gmap string Wage.t)
  : list Career.t :=
  main_careers MI_PUBLIC_2YR MI_PUBLIC_4YR ooh wages.

(** ** Further observations on strings *)

Fixpoint str_forallb (f : ascii -> bool) (s : string) : bool :=
  match s with
  | EmptyString => true
  | String c s' => f c && str_forallb f s'
  end.

(** Only whitespace, as for a blank title. *)
Definition all_ws (s : string) : bool := str_forallb Py.is_space s.

(** Every whitespace character of [s] is the space U+0020. *)
Definition plain_spaces (s : string) : bool :=
  str_forallb (fun c => negb (Py.is_space c) || bool_decide (c = " "%char)) s.

(** A character that [quote] can leave in its result: a kept one or the
    percent sign. *)
Definition url_char (c : ascii) : bool :=
  Py.quote_safe (nat_of_ascii c) || bool_decide (c = "%"%char).

(** [s.endswith(suf)] *)
Fixpoint ends_with (suf s : string) : bool :=
  if decide (s = suf) then true
  else match s with
       | EmptyString => false
       | String _ s' => ends_with suf s'
       end.

(** ** The link to the wage table: [find_oews_xls_url] *)

Definition OEWS_MI_PAGE : string :=
  "https://www.bls.gov/oes/2023/may/oes_mi.htm".

(** [href.lower().endswith((".xls", ".xlsx"))] *)
Definition is_xls_href (href : string) : bool :=
  let h := Py.lower href in ends_with ".xls" h || ends_with ".xlsx" h.

(** The function returns an address or raises
    [RuntimeError("Could not find OEWS XLS link.")]. *)
Inductive link_result :=
| Link (url : string)
| RuntimeError.

Section Links.

(** [requests.compat.urljoin], a library function taken as given. *)
Variable urljoin : string -> string -> string.

(** The loop over [soup.select("a[href]")], given the [href] values of
    the anchors in document order: the first match is returned. *)
Definition find_oews_xls_url (hrefs : list string) : link_result :=
  match List.find is_xls_href hrefs with
  | Some href => Link (urljoin OEWS_MI_PAGE href)
  | None => RuntimeError
  end.

End Links.

(** A wage cell that [float] takes without error: missing, or a number
    that fits a float. *)
Definition clean_cell (c : cell) : bool :=
  match c with
  | None => true
  | Some (VNumber q) => negb (float_overflows q)
  | Some (VText _) | Some (VDate _) => false
  end.

(** The records the estimator can return, for given rates. *)
Definition cost_table (r2 r4 : Z) : list Cost.t := [
  Cost.mk 2 (r2 * 2) "Community college estimate (tuition+fees only).";
  Cost.mk 4 (r4 * 4) "Public 4-year in-state estimate (tuition+fees only).";
  Cost.mk 6 (r4 * 6) "Very rough estimate (tuition+fees only).";
  Cost.mk 8 (r4 * 8) "Very rough estimate (tuition+fees only).";
  Cost.mk 1 r2 "Certificate/trade estimate (tuition+fees only).";
  Cost.mk 0 0 "No college required; training may still cost money."
].

(** * Properties *)

Arguments Py.is_space : simpl never.
Arguments Py.lower_char : simpl never.
Arguments float_overflows : simpl never.

(** ** Characters *)

Lemma is_space_lower_char c : Py.is_space (Py.lower_char c) = Py.is_space c.
Proof. by destruct c as [[] [] [] [] [] [] [] []]. Qed.

Lemma lower_char_idem c : Py.lower_char (Py.lower_char c) = Py.lower_char c.
Proof. by destruct c as [[] [] [] [] [] [] [] []]. Qed.

Lemma is_space_sp : Py.is_space " "%char = true.
Proof. reflexivity. Qed.

(** ** [lower] commutes with the whitespace functions *)

Lemma lower_idem s : Py.lower (Py.lower s) = Py.lower s.
Proof. induction s as [|c s IH]; simpl; [done|]. by rewrite lower_char_idem, IH. Qed.

Lemma starts_ws_lower s : starts_ws (Py.lower s) = starts_ws s.
Proof. destruct s; simpl; [done|]. apply is_space_lower_char. Qed.

Lemma lower_lstrip s : Py.lower (Py.lstrip s) = Py.lstrip (Py.lower s).
Proof.
  induction s as [|c s IH]; simpl; [done|].
  rewrite is_space_lower_char. by destruct (Py.is_space c).
Qed.

Lemma lower_rstrip s : Py.lower (Py.rstrip s) = Py.rstrip (Py.lower s).
Proof.
  induction s as [|c s IH]; simpl; [done|].
  rewrite <- IH, is_space_lower_char.
  destruct (Py.rstrip s); simpl; [|done].
  by destruct (Py.is_space c).
Qed.

Lemma lower_strip s : Py.lower (Py.strip s) = Py.strip (Py.lower s).
Proof. unfold Py.strip. by rewrite lower_rstrip, lower_lstrip. Qed.

Lemma lower_sub_ws s : Py.lower (Py.sub_ws s) = Py.sub_ws (Py.lower s).
Proof.
  induction s as [|c s IH]; [done|].
  cbn [Py.sub_ws Py.lower]. rewrite is_space_lower_char.
  destruct (Py.is_space c).
  - destruct s as [|c' s]; [done|].
    cbn [Py.lower]. rewrite is_space_lower_char.
    destruct (Py.is_space c'); [exact IH|].
    cbn [Py.lower]. by rewrite IH.
  - cbn [Py.lower]. by rewrite IH.
Qed.

(** ** Stripping *)

Lemma rstrip_cons c s :
  Py.is_space c = false -> Py.rstrip (String c s) = String c (Py.rstrip s).
Proof. intros Hc. simpl. rewrite Hc. by destruct (Py.rstrip s). Qed.

Lemma starts_ws_lstrip s : starts_ws (Py.lstrip s) = false.
Proof.
  induction s as [|c s IH]; simpl; [done|].
  destruct (Py.is_space c) eqn:Hc; [done|]. simpl. exact Hc.
Qed.

Lemma starts_ws_rstrip s : starts_ws s = false -> starts_ws (Py.rstrip s) = false.
Proof.
  destruct s as [|c s]; [done|]. intros Hc.
  change (Py.is_space c = false) in Hc.
  rewrite (rstrip_cons _ _ Hc). exact Hc.
Qed.

Lemma ends_ws_rstrip s : ends_ws (Py.rstrip s) = false.
Proof.
  induction s as [|c s IH]; simpl; [done|].
  destruct (Py.rstrip s) as [|c' r] eqn:Hr.
  - destruct (Py.is_space c) eqn:Hc; simpl; [done|exact Hc].
  - exact IH.
Qed.

Lemma lstrip_id s : starts_ws s = false -> Py.lstrip s = s.
Proof. destruct s as [|c s]; simpl; [done|]. by intros ->. Qed.

Lemma rstrip_id s : ends_ws s = false -> Py.rstrip s = s.
Proof.
  induction s as [|c s IH]; [done|].
  destruct s as [|c' s].
  - simpl. by intros ->.
  - intros H. change (ends_ws (String c' s) = false) in H.
    cbn [Py.rstrip]. cbn [Py.rstrip] in IH. by rewrite (IH H).
Qed.

Lemma strip_id s : starts_ws s = false -> ends_ws s = false -> Py.strip s = s.
Proof.
  intros H1 H2. unfold Py.strip. rewrite (lstrip_id _ H1). by apply rstrip_id.
Qed.

Lemma starts_ws_strip s : starts_ws (Py.strip s) = false.
Proof. apply starts_ws_rstrip, starts_ws_lstrip. Qed.

Lemma ends_ws_strip s : ends_ws (Py.strip s) = false.
Proof. apply ends_ws_rstrip. Qed.

(** ** Collapsing whitespace runs *)

Lemma sub_ws_cons c s :
  Py.sub_ws (String c s) =
  if Py.is_space c
  then if starts_ws s then Py.sub_ws s else String " "%char (Py.sub_ws s)
  else String c (Py.sub_ws s).
Proof. by destruct s. Qed.

Lemma starts_ws_sub_ws s : starts_ws (Py.sub_ws s) = starts_ws s.
Proof.
  induction s as [|c s IH]; [done|].
  rewrite sub_ws_cons. cbn [starts_ws].
  destruct (Py.is_space c) eqn:Hc; [|exact Hc].
  destruct (starts_ws s) eqn:Hs; [by rewrite IH|done].
Qed.

Lemma sub_ws_nonempty c s : Py.sub_ws (String c s) <> EmptyString.
Proof.
  revert c. induction s as [|c' s IH]; intros c; rewrite sub_ws_cons.
  - by destruct (Py.is_space c).
  - destruct (Py.is_space c); [|done].
    destruct (starts_ws (String c' s)); [apply IH|done].
Qed.

Lemma ends_ws_cons c s : s <> EmptyString -> ends_ws (String c s) = ends_ws s.
Proof. by destruct s. Qed.

Lemma ends_ws_sub_ws s : ends_ws (Py.sub_ws s) = ends_ws s.
Proof.
  induction s as [|c s IH]; [done|].
  destruct s as [|c' s].
  - rewrite sub_ws_cons. cbn. by destruct (Py.is_space c) eqn:Hc.
  - rewrite (ends_ws_cons c (String c' s)) by done.
    rewrite sub_ws_cons.
    destruct (Py.is_space c).
    + destruct (starts_ws (String c' s)); [exact IH|].
      rewrite ends_ws_cons by apply sub_ws_nonempty. exact IH.
    + rewrite ends_ws_cons by apply sub_ws_nonempty. exact IH.
Qed.

Lemma has_ws_pair_sub_ws s : has_ws_pair (Py.sub_ws s) = false.
Proof.
  induction s as [|c s IH]; [done|].
  rewrite sub_ws_cons. destruct (Py.is_space c) eqn:Hc.
  - destruct (starts_ws s) eqn:Hs; [exact IH|].
    cbn [has_ws_pair]. by rewrite IH, starts_ws_sub_ws, Hs.
  - cbn [has_ws_pair]. by rewrite IH, Hc.
Qed.

Lemma sub_ws_idem s : Py.sub_ws (Py.sub_ws s) = Py.sub_ws s.
Proof.
  induction s as [|c s IH]; [done|].
  rewrite sub_ws_cons. destruct (Py.is_space c) eqn:Hc.
  - destruct (starts_ws s) eqn:Hs; [exact IH|].
    rewrite sub_ws_cons, is_space_sp, starts_ws_sub_ws, Hs. by rewrite IH.
  - rewrite sub_ws_cons, Hc. by rewrite IH.
Qed.

(** ** Words *)

Lemma words_cons c s :
  words (String c s) =
  if Py.is_space c then words s
  else if starts_ws s then String c EmptyString :: words s
  else match words s with
       | w :: ws => String c w :: ws
       | [] => [String c EmptyString]
       end.
Proof. reflexivity. Qed.

Lemma join_sp_cons w ws :
  join_sp (w :: ws) =
  match ws with
  | [] => w
  | _ :: _ => w +:+ String " "%char (join_sp ws)
  end.
Proof. by destruct ws. Qed.

Lemma words_lstrip s : words (Py.lstrip s) = words s.
Proof.
  induction s as [|c s IH]; [done|].
  cbn [Py.lstrip]. rewrite (words_cons c s).
  destruct (Py.is_space c) eqn:Hc; [exact IH|].
  by rewrite words_cons, Hc.
Qed.

Lemma rstrip_empty_words s : Py.rstrip s = EmptyString -> words s = [].
Proof.
  induction s as [|c s IH]; [done|].
  cbn [Py.rstrip]. rewrite words_cons.
  destruct (Py.rstrip s); [|done].
  destruct (Py.is_space c); [auto|done].
Qed.

Lemma words_nonempty s :
  s <> EmptyString -> starts_ws s = false -> words s <> [].
Proof.
  destruct s as [|c s]; [done|]. intros _ Hc.
  change (Py.is_space c = false) in Hc.
  rewrite words_cons, Hc.
  destruct (starts_ws s); [done|]. by destruct (words s).
Qed.

Lemma starts_ws_rstrip_cons s c r :
  Py.rstrip s = String c r -> starts_ws s = Py.is_space c /\ s <> EmptyString.
Proof.
  destruct s as [|c0 s]; [done|]. cbn [Py.rstrip starts_ws].
  destruct (Py.rstrip s).
  - destruct (Py.is_space c0) eqn:Hc0; [done|]. intros [= <- _]. by rewrite Hc0.
  - by intros [= <- _].
Qed.

(** The tail of a stripped string, word by word. *)
Lemma sub_ws_rstrip_words s :
  Py.sub_ws (Py.rstrip s) =
  if starts_ws s
  then match words s with
       | [] => EmptyString
       | ws => String " "%char (join_sp ws)
       end
  else join_sp (words s).
Proof.
  induction s as [|c s IH]; [done|].
  cbn [starts_ws]. rewrite words_cons.
  destruct (Py.is_space c) eqn:Hc.
  - cbn [Py.rstrip]. rewrite Hc.
    destruct (Py.rstrip s) as [|c' r] eqn:Hr.
    + by rewrite (rstrip_empty_words _ Hr).
    + destruct (starts_ws_rstrip_cons _ _ _ Hr) as [Hs Hne].
      rewrite sub_ws_cons, Hc. cbn [starts_ws]. rewrite <- Hs.
      destruct (starts_ws s) eqn:Hs'; [exact IH|].
      rewrite IH. pose proof (words_nonempty s Hne Hs').
      by destruct (words s).
  - rewrite (rstrip_cons _ _ Hc), sub_ws_cons, Hc, IH.
    destruct (starts_ws s).
    + by destruct (words s).
    + destruct (words s) as [|w ws]; [done|]. by destruct ws.
Qed.

Lemma squeeze_words s : Py.sub_ws (Py.strip s) = join_sp (words s).
Proof.
  unfold Py.strip. rewrite sub_ws_rstrip_words, starts_ws_lstrip.
  by rewrite words_lstrip.
Qed.

Lemma words_lower s : words (Py.lower s) = Py.lower <$> words s.
Proof.
  induction s as [|c s IH]; [done|].
  cbn [Py.lower]. rewrite !words_cons, is_space_lower_char, starts_ws_lower, IH.
  destruct (Py.is_space c); [done|].
  destruct (starts_ws s); [done|].
  by destruct (words s).
Qed.

Lemma norm_words s : norm s = join_sp (Py.lower <$> words s).
Proof. unfold norm. by rewrite squeeze_words, words_lower. Qed.

Lemma norm_no_leading_ws s : starts_ws (norm s) = false.
Proof. unfold norm. by rewrite starts_ws_sub_ws, starts_ws_strip. Qed.

Lemma norm_no_trailing_ws s : ends_ws (norm s) = false.
Proof. unfold norm. by rewrite ends_ws_sub_ws, ends_ws_strip. Qed.

Lemma norm_idem s : norm (norm s) = norm s.
Proof.
  unfold norm at 1.
  assert (Py.lower (norm s) = norm s) as ->.
  { unfold norm. by rewrite lower_sub_ws, lower_strip, lower_idem. }
  rewrite strip_id by (apply norm_no_leading_ws || apply norm_no_trailing_ws).
  unfold norm. apply sub_ws_idem.
Qed.

(** [C6] The key normaliser is idempotent; a key has no two whitespace
    characters in a row and none at either end; and two titles with the same
    words up to letter case, that is, titles that differ only in letter case
    and in their runs of whitespace, get the same key.  [norm] is a total
    function, so it never fails and is deterministic. *)
Theorem norm_normal_form (s : string) :
  norm (norm s) = norm s
  /\ has_ws_pair (norm s) = false
  /\ starts_ws (norm s) = false
  /\ ends_ws (norm s) = false
  /\ (forall s' : string, Py.lower s = Py.lower s' -> norm s = norm s')
  /\ (forall s' : string,
        Py.lower <$> words s = Py.lower <$> words s' -> norm s = norm s').
Proof.
  split; [apply norm_idem|].
  split; [apply has_ws_pair_sub_ws|].
  split; [apply norm_no_leading_ws|].
  split; [apply norm_no_trailing_ws|].
  split.
  - intros s' H. unfold norm. by rewrite H.
  - intros s' H. by rewrite !norm_words, H.
Qed.

Lemma norm_normal_form_witness :
  norm (norm "  Registered   NURSES ") = norm "  Registered   NURSES "
  /\ norm "  Registered   NURSES " = "registered nurses"
  /\ norm "  Registered   NURSES " = norm "registered nurses".
Proof.
  destruct (norm_normal_form "  Registered   NURSES ") as (H1 & _ & _ & _ & _ & H6).
  split; [exact H1|]. split; [reflexivity|].
  apply H6. reflexivity.
Defined.

(** ** Substrings *)

Lemma str_app_cons c s t : String c s +:+ t = String c (s +:+ t).
Proof. reflexivity. Qed.

Lemma str_app_assoc a b c : (a +:+ b) +:+ c = a +:+ (b +:+ c).
Proof.
  induction a as [|x a IH]; [done|]. by rewrite !str_app_cons, IH.
Qed.

Lemma starts_with_spec p s :
  Py.starts_with p s = true <-> exists b, s = p +:+ b.
Proof.
  split.
  - revert s. induction p as [|a p IH]; intros s H.
    + by exists s.
    + destruct s as [|b s]; [done|]. simpl in H.
      destruct (decide (a = b)) as [->|]; [|done].
      destruct (IH _ H) as [t ->]. by exists t.
  - intros [b ->]. induction p as [|a p IH]; [done|].
    rewrite str_app_cons. simpl. by rewrite decide_True.
Qed.

Lemma contains_cons p c s :
  Py.contains p (String c s) = Py.starts_with p (String c s) || Py.contains p s.
Proof. reflexivity. Qed.

Lemma contains_spec p s :
  Py.contains p s = true <-> exists a b, s = a +:+ p +:+ b.
Proof.
  split.
  - induction s as [|c s IH].
    + simpl. rewrite orb_false_r. intros [b ->]%starts_with_spec.
      by exists EmptyString, b.
    + rewrite contains_cons. intros [H|H]%orb_true_iff.
      * apply starts_with_spec in H as [b ->]. by exists EmptyString, b.
      * destruct (IH H) as (a & b & ->). by exists (String c a), b.
  - intros (a & b & ->). induction a as [|c a IH].
    + assert (Py.starts_with p (p +:+ b) = true) as H
        by (apply starts_with_spec; eauto).
      change (EmptyString +:+ p +:+ b) with (p +:+ b).
      destruct (p +:+ b); simpl; by rewrite H.
    + rewrite str_app_cons, contains_cons, IH. apply orb_true_r.
Qed.

Lemma contains_trans q p s :
  Py.contains q p = true -> Py.contains p s = true -> Py.contains q s = true.
Proof.
  intros (a1 & b1 & ->)%contains_spec (a2 & b2 & ->)%contains_spec.
  apply contains_spec. exists (a2 +:+ a1), (b1 +:+ b2).
  by rewrite !str_app_assoc.
Qed.

Lemma find_ext {A} (f g : A -> bool) l :
  (forall x, f x = g x) -> List.find f l = List.find g l.
Proof.
  intros H. induction l as [|x l IH]; [done|]. simpl. by rewrite H, IH.
Qed.

(** ** Column resolution *)

Lemma is_p25_col_pair c : is_p25_col c = has_25_annual c.
Proof.
  unfold is_p25_col, has_25_annual.
  destruct (Py.contains "annual 25th percentile" c) eqn:H; [|done].
  rewrite (contains_trans "25" "annual 25th percentile" c eq_refl H).
  by rewrite (contains_trans "annual" "annual 25th percentile" c eq_refl H).
Qed.

Lemma is_med_col_pair c : is_med_col c = has_median_annual c.
Proof.
  unfold is_med_col, has_median_annual.
  destruct (Py.contains "annual median" c) eqn:H; [|done].
  rewrite (contains_trans "median" "annual median" c eq_refl H).
  by rewrite (contains_trans "annual" "annual median" c eq_refl H).
Qed.

Lemma find_first {A} (f : A -> bool) l x :
  List.find f l = Some x <->
  exists pre post, l = pre ++ x :: post /\ f x = true
                   /\ Forall (fun y => f y = false) pre.
Proof.
  split.
  - induction l as [|y l IH]; [done|]. simpl.
    destruct (f y) eqn:Hy.
    + intros [= ->]. by exists [], l.
    + intros (pre & post & -> & Hx & Hpre)%IH.
      exists (y :: pre), post. by repeat split; [|constructor].
  - intros (pre & post & -> & Hx & Hpre).
    induction Hpre as [|y pre Hy _ IH]; simpl; [by rewrite Hx|by rewrite Hy].
Qed.

Lemma find_none_iff {A} (f : A -> bool) l :
  List.find f l = None <-> Forall (fun y => f y = false) l.
Proof.
  induction l as [|y l IH]; simpl; [by split; [constructor|]|].
  destruct (f y) eqn:Hy.
  - split; [done|]. intros H. inversion H; congruence.
  - rewrite IH. split; [by constructor|]. intros H. by inversion H.
Qed.

(** [C2, counterexample] A column that only contains "25" and "annual"
    and stands before the column with the full phrase is the one the code
    picks; the two-phase rule of the claim picks the other one.  The same
    holds for the median column. *)
Lemma wage_cols_not_two_phase :
  let cols := norm <$> ["Occupation Title"; "Annual wage 25";
                        "Annual 25th percentile wage";
                        "Median annual wage"; "Annual median wage"] in
  p25_col cols = Some "annual wage 25"
  /\ p25_col_two_phase cols = Some "annual 25th percentile wage"
  /\ p25_col cols <> p25_col_two_phase cols
  /\ med_col cols = Some "median annual wage"
  /\ med_col_two_phase cols = Some "annual median wage"
  /\ med_col cols <> med_col_two_phase cols.
Proof. by vm_compute. Qed.

(** [C2, amended] Column resolution is a single pass: the 25th-percentile
    column is the first normalised column name that contains
    "annual 25th percentile" or contains both "25" and "annual", which is
    the first one that contains both "25" and "annual"; the median column is
    the first one that contains "annual median" or both "median" and
    "annual", which is the first one that contains both.  Columns before
    the chosen one match neither pattern.  When no column contains the full
    phrase the result is that of the two-phase rule. *)
Theorem wage_cols_single_pass (cols : list string) :
  p25_col cols = List.find has_25_annual cols
  /\ med_col cols = List.find has_median_annual cols
  /\ (forall c, p25_col cols = Some c <->
        exists pre post, cols = pre ++ c :: post /\ is_p25_col c = true
                         /\ Forall (fun y => is_p25_col y = false) pre)
  /\ (forall c, med_col cols = Some c <->
        exists pre post, cols = pre ++ c :: post /\ is_med_col c = true
                         /\ Forall (fun y => is_med_col y = false) pre)
  /\ (List.find (Py.contains "annual 25th percentile") cols = None ->
      p25_col cols = p25_col_two_phase cols)
  /\ (List.find (Py.contains "annual median") cols = None ->
      med_col cols = med_col_two_phase cols).
Proof.
  assert (p25_col cols = List.find has_25_annual cols) as Hp
    by apply find_ext, is_p25_col_pair.
  assert (med_col cols = List.find has_median_annual cols) as Hm
    by apply find_ext, is_med_col_pair.
  repeat split; try (apply find_first, H); try (by apply find_first).
  - exact Hp.
  - exact Hm.
  - intros H. unfold p25_col_two_phase. by rewrite H, Hp.
  - intros H. unfold med_col_two_phase. by rewrite H, Hm.
Qed.

Lemma wage_cols_single_pass_witness :
  p25_col ["occupation title"; "a_pct25"; "annual pct 25"]
  = p25_col_two_phase ["occupation title"; "a_pct25"; "annual pct 25"]
  /\ med_col ["occupation title"; "annual wage, median"]
     = med_col_two_phase ["occupation title"; "annual wage, median"].
Proof.
  split.
  - by apply (wage_cols_single_pass
                ["occupation title"; "a_pct25"; "annual pct 25"]).
  - by apply (wage_cols_single_pass
                ["occupation title"; "annual wage, median"]).
Defined.

(** ** The row loop of [load_oews] *)

Lemma bind_ok {A B} (m : result A) (k : A -> result B) b :
  (m ≫= k) = Ok b <-> exists a, m = Ok a /\ k a = Ok b.
Proof.
  destruct m as [a|e]; simpl.
  - split; [by exists a|]. by intros (a' & [= ->] & ?).
  - split; [done|]. by intros (a' & [=] & ?).
Qed.

Lemma raises_false {A} (m : result A) :
  raises m = false <-> exists a, m = Ok a.
Proof.
  destruct m as [a|e]; simpl.
  - split; [by exists a|done].
  - split; [done|]. by intros [a [=]].
Qed.

Lemma step_skip tcol pcol mcol out r :
  row_title tcol r = None -> load_oews_step tcol pcol mcol out r = Ok out.
Proof. unfold load_oews_step. by intros ->. Qed.

Lemma step_insert tcol pcol mcol out r t p m :
  row_title tcol r = Some t ->
  wage_field pcol r = Ok p -> wage_field mcol r = Ok m ->
  load_oews_step tcol pcol mcol out r = Ok (<[norm t := Wage.mk p m]> out).
Proof. unfold load_oews_step. by intros -> -> ->. Qed.

Lemma step_ok_inv tcol pcol mcol out r out' :
  load_oews_step tcol pcol mcol out r = Ok out' ->
  (row_title tcol r = None /\ out' = out)
  \/ exists t p m, row_title tcol r = Some t
                   /\ wage_field pcol r = Ok p /\ wage_field mcol r = Ok m
                   /\ out' = <[norm t := Wage.mk p m]> out.
Proof.
  unfold load_oews_step. destruct (row_title tcol r) as [t|].
  - intros (p & Hp & (m & Hm & [= <-])%bind_ok)%bind_ok.
    right. by exists t, p, m.
  - intros [= <-]. by left.
Qed.

Lemma step_raises tcol pcol mcol out r :
  raises (load_oews_step tcol pcol mcol out r) = row_raises tcol pcol mcol r.
Proof.
  unfold load_oews_step, row_raises. destruct (row_title tcol r); [|done].
  destruct (wage_field pcol r); [|done].
  by destruct (wage_field mcol r).
Qed.

Lemma rows_raises tcol pcol mcol rows out :
  raises (load_oews_rows tcol pcol mcol rows out)
  = existsb (row_raises tcol pcol mcol) rows.
Proof.
  revert out. induction rows as [|r rows IH]; intros out; [done|].
  cbn [load_oews_rows existsb]. rewrite <- (step_raises _ _ _ out).
  destruct (load_oews_step tcol pcol mcol out r); simpl; [apply IH|done].
Qed.

Lemma rows_total tcol pcol mcol rows out :
  Forall (fun r => row_raises tcol pcol mcol r = false) rows ->
  exists out', load_oews_rows tcol pcol mcol rows out = Ok out'.
Proof.
  intros H. apply raises_false. rewrite rows_raises.
  induction H as [|r rows Hr _ IH]; simpl; [done|]. by rewrite Hr.
Qed.

Lemma rows_app tcol pcol mcol l1 l2 out :
  load_oews_rows tcol pcol mcol (l1 ++ l2) out
  = load_oews_rows tcol pcol mcol l1 out ≫= load_oews_rows tcol pcol mcol l2.
Proof.
  revert out. induction l1 as [|r l1 IH]; intros out; [done|].
  cbn [app load_oews_rows].
  destruct (load_oews_step tcol pcol mcol out r); simpl; [apply IH|done].
Qed.

(** Where a record of the result comes from. *)
Lemma rows_lookup_inv tcol pcol mcol rows out out' k w :
  load_oews_rows tcol pcol mcol rows out = Ok out' ->
  out' !! k = Some w ->
  out !! k = Some w
  \/ exists r t, r ∈ rows /\ row_title tcol r = Some t /\ k = norm t
                 /\ wage_field pcol r = Ok (Wage.p25 w)
                 /\ wage_field mcol r = Ok (Wage.median w).
Proof.
  revert out. induction rows as [|r rows IH]; intros out.
  - intros [= <-]. by left.
  - cbn [load_oews_rows]. intros (o & Hstep & Hrest)%bind_ok Hk.
    destruct (IH _ Hrest Hk) as [Ho|(r' & t & Hin & ?)].
    + apply step_ok_inv in Hstep as [[_ ->]|(t & p & m & Ht & Hp & Hm & ->)].
      * by left.
      * destruct (decide (norm t = k)) as [<-|Hne].
        -- rewrite lookup_insert_eq in Ho. injection Ho as <-.
           right. exists r, t. split; [by left|done].
        -- rewrite lookup_insert_ne in Ho by done. by left.
    + right. exists r', t. split; [by right|done].
Qed.

(** Rows that do not carry the key leave its entry alone. *)
Lemma rows_lookup_other tcol pcol mcol rows out out' k :
  load_oews_rows tcol pcol mcol rows out = Ok out' ->
  Forall (fun r => forall t, row_title tcol r = Some t -> norm t <> k) rows ->
  out' !! k = out !! k.
Proof.
  revert out. induction rows as [|r rows IH]; intros out.
  - by intros [= <-].
  - cbn [load_oews_rows]. intros (o & Hstep & Hrest)%bind_ok Hall.
    inversion Hall as [|? ? Hr Hrows]; subst.
    rewrite (IH _ Hrest Hrows).
    apply step_ok_inv in Hstep as [[_ ->]|(t & p & m & Ht & _ & _ & ->)];
      [done|].
    apply lookup_insert_ne. by apply Hr.
Qed.



Lemma load_oews_unfold df :
  load_oews df =
  title_col (norm <$> columns df) ≫= fun tcol =>
    load_oews_rows tcol (p25_col (norm <$> columns df))
      (med_col (norm <$> columns df))
      (align (norm <$> columns df) <$> data df) ∅.
Proof. reflexivity. Qed.

(** ** Rows without a text title *)




(** ** Wage cells *)

Lemma py_float_raises v :
  raises (py_float v) = true <->
  (exists s, v = VText s /\ Py.is_float_literal s = false)
  \/ (exists d, v = VDate d)
  \/ (exists q, v = VNumber q /\ float_overflows q = true).
Proof.
  destruct v as [q|s|d]; simpl.
  - destruct (float_overflows q) eqn:Hq; simpl.
    + split; [|done]. intros _. right; right. by exists q.
    + split; [done|].
      intros [(? & [=] & _)|[(? & [=])|(? & [= <-] & ?)]]. congruence.
  - destruct (Py.is_float_literal s) eqn:Hs; simpl.
    + split; [done|].
      intros [(? & [= <-] & ?)|[(? & [=])|(? & [=] & _)]]. congruence.
    + split; [|done]. intros _. left. by exists s.
  - split; [|done]. intros _. right; left. by exists d.
Qed.

(** [C4, counterexample] A processed row whose wage cell holds the text
    "*", as the wage tables do where no estimate is published, makes the
    field computation, and with it [load_oews], raise [ValueError]. *)
Lemma wage_cell_text_raises :
  let df := {| columns := ["Occupation Title"; "Annual 25th percentile wage";
                           "Annual median wage"];
               data := [[Some (VText "Surgeons"); Some (VText "*");
                         Some (VNumber 239200)]] |} in
  let cols := norm <$> columns df in
  let r := align cols [Some (VText "Surgeons"); Some (VText "*");
                       Some (VNumber 239200)] in
  row_title "occupation title" r = Some "Surgeons"
  /\ wage_field (p25_col cols) r = Raise ValueError
  /\ load_oews df = Raise ValueError.
Proof. by vm_compute. Qed.

(** [C4, amended] For a processed row and a resolved wage column whose
    label occurs once: a missing cell yields null, a numeric cell that fits
    a float is converted to a float, and a text cell that [float] accepts is
    converted to a float, all without error.  Computing a field raises
    exactly when the column is resolved and its cell is a text that [float]
    rejects, a date, or an integer too large for a float, or the label is
    duplicated or absent in the row; the error is not caught. *)
Theorem wage_field_outcome (col : option string) (r : series) :
  (forall c, col = Some c -> Py.truthy c = true ->
     series_get c r = Scalar None -> wage_field col r = Ok None)
  /\ (forall c q, col = Some c -> Py.truthy c = true ->
        series_get c r = Scalar (Some (VNumber q)) ->
        float_overflows q = false ->
        wage_field col r = Ok (Some (FloatOfNumber q)))
  /\ (forall c s, col = Some c -> Py.truthy c = true ->
        series_get c r = Scalar (Some (VText s)) ->
        Py.is_float_literal s = true ->
        wage_field col r = Ok (Some (FloatOfText s)))
  /\ (raises (wage_field col r) = true <->
      exists c, col = Some c /\ Py.truthy c = true
        /\ (series_get c r = Absent
            \/ (exists cs, series_get c r = SubSeries cs)
            \/ (exists s, series_get c r = Scalar (Some (VText s))
                          /\ Py.is_float_literal s = false)
            \/ (exists d, series_get c r = Scalar (Some (VDate d)))
            \/ (exists q, series_get c r = Scalar (Some (VNumber q))
                          /\ float_overflows q = true))).
Proof.
  split_and!.
  - intros c -> Hc Hg. unfold wage_field. by rewrite Hc, Hg.
  - intros c q -> Hc Hg Hq. unfold wage_field. rewrite Hc, Hg. simpl.
    by rewrite Hq.
  - intros c s -> Hc Hg Hs. unfold wage_field. rewrite Hc, Hg. simpl.
    by rewrite Hs.
  - split.
    + destruct col as [c|]; [|done]. unfold wage_field.
      destruct (Py.truthy c) eqn:Hc; [|done]. simpl.
      intros H. exists c. split; [done|]. split; [done|].
      destruct (series_get c r) as [|[v|]|cs];
        [by left| |done|right; left; eauto].
      right; right.
      assert (raises (py_float v) = true) as Hv by (by destruct (py_float v)).
      apply py_float_raises in Hv as [(s & -> & Hs)|[(d & ->)|(q & -> & Hq)]];
        [left|right; left|right; right]; eauto.
    + intros (c & -> & Hc & H). unfold wage_field. rewrite Hc. simpl.
      destruct H as [->|[[cs ->]|[(s & -> & Hs)|[[d ->]|(q & -> & Hq)]]]];
        try done; simpl.
      * by rewrite Hs.
      * by rewrite Hq.
Qed.

Lemma wage_field_outcome_witness :
  let r := align ["occupation title"; "annual 25th percentile wage";
                  "annual median wage"]
                 [Some (VText "Registered Nurses"); Some (VNumber 60000);
                  Some (VText " 86000.0 ")] in
  wage_field (Some "annual 25th percentile wage") r
  = Ok (Some (FloatOfNumber 60000))
  /\ wage_field (Some "annual median wage") r
     = Ok (Some (FloatOfText " 86000.0 ")).
Proof.
  intros r.
  destruct (wage_field_outcome (Some "annual 25th percentile wage") r)
    as (_ & Hnum & _).
  destruct (wage_field_outcome (Some "annual median wage") r)
    as (_ & _ & Htext & _).
  split.
  - apply (Hnum "annual 25th percentile wage" 60000%Q);
      [reflexivity|reflexivity|by vm_compute|by vm_compute].
  - apply (Htext "annual median wage" " 86000.0 ");
      [reflexivity|reflexivity|by vm_compute|by vm_compute].
Defined.

(** ** Unresolved wage columns *)

(** Errors that have another origin than the unresolved column remain:
    with no median column in the table [load_oews] raises when a cell of the
    resolved 25th-percentile column is a text that is no number, and the
    other way round; a table without any column raises [IndexError] from the
    title column fallback. *)
Lemma unresolved_col_still_raises :
  let df1 := {| columns := ["Occupation Title"; "Annual 25th percentile wage"];
                data := [[Some (VText "Surgeons"); Some (VText "#")]] |} in
  let df2 := {| columns := ["Occupation Title"; "Annual median wage"];
                data := [[Some (VText "Surgeons"); Some (VText "#")]] |} in
  let df3 := {| columns := []; data := [] |} in
  (med_col (norm <$> columns df1) = None /\ load_oews df1 = Raise ValueError)
  /\ (p25_col (norm <$> columns df2) = None
      /\ load_oews df2 = Raise ValueError)
  /\ (med_col (norm <$> columns df3) = None
      /\ p25_col (norm <$> columns df3) = None
      /\ load_oews df3 = Raise IndexError).
Proof. by vm_compute. Qed.

(** [C8] If no column name matches either median pattern, the median
    field is computed as null for every row, without error, and every record
    of the produced mapping has a null median; the unresolved column is no
    error, and [load_oews] produces a mapping whenever the table has a
    column and no processed row fails in its 25th-percentile field.  The
    same holds with the two columns exchanged. *)
Theorem unresolved_wage_col_null (df : dataframe) :
  let cols := norm <$> columns df in
  (med_col cols = None ->
     (forall r, wage_field (med_col cols) r = Ok None)
     /\ (forall out k w,
           load_oews df = Ok out -> out !! k = Some w -> Wage.median w = None)
     /\ (forall tcol,
           title_col cols = Ok tcol ->
           Forall (fun cells =>
                     row_raises tcol (p25_col cols) None (align cols cells)
                     = false) (data df) ->
           exists out, load_oews df = Ok out))
  /\ (p25_col cols = None ->
        (forall r, wage_field (p25_col cols) r = Ok None)
        /\ (forall out k w,
              load_oews df = Ok out -> out !! k = Some w -> Wage.p25 w = None)
        /\ (forall tcol,
              title_col cols = Ok tcol ->
              Forall (fun cells =>
                        row_raises tcol None (med_col cols) (align cols cells)
                        = false) (data df) ->
              exists out, load_oews df = Ok out)).
Proof.
  intros cols. split; intros Hnone; (split; [|split]).
  - intros r. by rewrite Hnone.
  - intros out k w Hload Hw. rewrite load_oews_unfold in Hload.
    apply bind_ok in Hload as (tcol & _ & Hrows). fold cols in Hrows.
    rewrite Hnone in Hrows.
    destruct (rows_lookup_inv _ _ _ _ _ _ _ _ Hrows Hw)
      as [He|(r & t & _ & _ & _ & _ & Hm)]; [by rewrite lookup_empty in He|].
    simpl in Hm. congruence.
  - intros tcol Htcol Hall. rewrite load_oews_unfold. fold cols.
    rewrite Htcol, Hnone. simpl. apply rows_total.
    by apply Forall_fmap.
  - intros r. by rewrite Hnone.
  - intros out k w Hload Hw. rewrite load_oews_unfold in Hload.
    apply bind_ok in Hload as (tcol & _ & Hrows). fold cols in Hrows.
    rewrite Hnone in Hrows.
    destruct (rows_lookup_inv _ _ _ _ _ _ _ _ Hrows Hw)
      as [He|(r & t & _ & _ & _ & Hp & _)]; [by rewrite lookup_empty in He|].
    simpl in Hp. congruence.
  - intros tcol Htcol Hall. rewrite load_oews_unfold. fold cols.
    rewrite Htcol, Hnone. simpl. apply rows_total.
    by apply Forall_fmap.
Qed.

Lemma unresolved_wage_col_null_witness :
  let df := {| columns := ["Occupation Title"; "Annual 25th percentile wage"];
               data := [[Some (VText "Registered Nurses");
                         Some (VNumber 60000)];
                        [Some (VText "Electricians"); None]] |} in
  med_col (norm <$> columns df) = None
  /\ (forall r, wage_field (med_col (norm <$> columns df)) r = Ok None)
  /\ exists out, load_oews df = Ok out.
Proof.
  intros df. split; [by vm_compute|].
  destruct (unresolved_wage_col_null df) as [H _].
  destruct (H ltac:(by vm_compute)) as (H1 & _ & H3).
  split; [exact H1|].
  apply (H3 "occupation title"); [by vm_compute|].
  repeat constructor; by vm_compute.
Defined.

(** ** Key collisions *)

Lemma parse_ooh_step_lookup out occ :
  Py.truthy (occ_key_title occ) = true ->
  parse_ooh_step out occ !! norm (occ_key_title occ) = Some (profile_of occ).
Proof. intros H. unfold parse_ooh_step. rewrite H. apply lookup_insert_eq. Qed.

Lemma parse_ooh_fold_other k occs out :
  Forall (fun o => Py.truthy (occ_key_title o) = true ->
                   norm (occ_key_title o) <> k) occs ->
  fold_left parse_ooh_step occs out !! k = out !! k.
Proof.
  intros H. revert out. induction H as [|o occs Ho _ IH]; intros out; [done|].
  simpl. rewrite IH. unfold parse_ooh_step.
  destruct (Py.truthy (occ_key_title o)); simpl; [|done].
  apply lookup_insert_ne. by apply Ho.
Qed.

(** [C9] Last entry wins, in both extractors.  In [parse_ooh] the record
    stored under a key is the one built from the last entry with a non-empty
    title that normalises to it, whatever came before.  In [load_oews], when
    no processed row fails in a wage field, the record stored under a key is
    the one built from the last row with a text title that normalises to it.
    A mapping holds one record per key, and whether the row loop raises
    depends on each row alone, never on the keys met before. *)
Theorem last_entry_wins :
  (forall pre occ post,
      Py.truthy (occ_key_title occ) = true ->
      Forall (fun o => Py.truthy (occ_key_title o) = true ->
                       norm (occ_key_title o) <> norm (occ_key_title occ))
             post ->
      parse_ooh (pre ++ occ :: post) !! norm (occ_key_title occ)
      = Some (profile_of occ))
  /\ (forall df tcol pre cells post t p m,
        let cols := norm <$> columns df in
        let ok := fun cs =>
          row_raises tcol (p25_col cols) (med_col cols) (align cols cs)
          = false in
        title_col cols = Ok tcol ->
        data df = pre ++ cells :: post ->
        row_title tcol (align cols cells) = Some t ->
        wage_field (p25_col cols) (align cols cells) = Ok p ->
        wage_field (med_col cols) (align cols cells) = Ok m ->
        Forall ok pre -> Forall ok post ->
        Forall (fun cs => forall t',
                  row_title tcol (align cols cs) = Some t' -> norm t' <> norm t)
               post ->
        exists out, load_oews df = Ok out
                    /\ out !! norm t = Some (Wage.mk p m))
  /\ (forall tcol pcol mcol rows out,
        raises (load_oews_rows tcol pcol mcol rows out)
        = existsb (row_raises tcol pcol mcol) rows).
Proof.
  split; [|split].
  - intros pre occ post Ht Hpost. unfold parse_ooh.
    rewrite fold_left_app. simpl.
    rewrite (parse_ooh_fold_other _ _ _ Hpost).
    by apply parse_ooh_step_lookup.
  - intros df tcol pre cells post t p m cols ok Htcol Hdata Ht Hp Hm
      Hpre Hpost Hother.
    rewrite load_oews_unfold. fold cols. rewrite Htcol, Hdata. simpl.
    rewrite fmap_app, fmap_cons, rows_app.
    destruct (rows_total tcol (p25_col cols) (med_col cols)
                (align cols <$> pre) ∅) as [o1 Ho1]; [by apply Forall_fmap|].
    rewrite Ho1. simpl. rewrite (step_insert _ _ _ _ _ _ _ _ Ht Hp Hm). simpl.
    destruct (rows_total tcol (p25_col cols) (med_col cols)
                (align cols <$> post) (<[norm t:=Wage.mk p m]> o1))
      as [out Hout]; [by apply Forall_fmap|].
    exists out. split; [done|].
    rewrite (rows_lookup_other _ _ _ _ _ _ (norm t) Hout).
    + apply lookup_insert_eq.
    + by apply Forall_fmap.
  - apply rows_raises.
Qed.

Lemma last_entry_wins_witness :
  let o1 := {| occ_title := Some "Registered  Nurses";
               occ_summary := Some "first"; occ_education := None;
               occ_entry_level_education := None; occ_url := None |} in
  let o2 := {| occ_title := Some " registered nurses ";
               occ_summary := Some "second";
               occ_education := Some "Bachelor's degree";
               occ_entry_level_education := None; occ_url := None |} in
  let df := {| columns := ["Occupation Title"; "Annual median wage"];
               data := [[Some (VText "Registered Nurses"); Some (VNumber 1)];
                        [Some (VText "REGISTERED NURSES");
                         Some (VNumber 2)]] |} in
  parse_ooh [o1; o2] !! "registered nurses" = Some (profile_of o2)
  /\ exists out, load_oews df = Ok out
       /\ out !! "registered nurses"
          = Some (Wage.mk None (Some (FloatOfNumber 2))).
Proof.
  intros o1 o2 df. destruct last_entry_wins as (H1 & H2 & _). split.
  - apply (H1 [o1] o2 []); [by vm_compute|constructor].
  - apply (H2 df "occupation title"
              [[Some (VText "Registered Nurses"); Some (VNumber 1)]]
              [Some (VText "REGISTERED NURSES"); Some (VNumber 2)] []
              "REGISTERED NURSES" None (Some (FloatOfNumber 2)));
      try (by vm_compute); repeat constructor.
Defined.

(** ** The education cost estimator *)

Lemma contains_truthy p s :
  Py.truthy p = true -> Py.contains p s = true -> Py.truthy s = true.
Proof. destruct p; [done|]. by destruct s. Qed.

(** [C5, counterexample] An input that contains "bachelor" and "master"
    and also "associate" is answered by the associate rule: two years. *)
Lemma edu_cost_associate_first :
  let s := "Associate's, bachelor's or master's degree" in
  Py.contains "bachelor" (Py.lower s) = true
  /\ Py.contains "master" (Py.lower s) = true
  /\ edu_cost MI_PUBLIC_2YR MI_PUBLIC_4YR (Some s)
     = Some (Cost.mk 2 0 "Community college estimate (tuition+fees only).")
  /\ Cost.years <$> edu_cost 5000 15000 (Some s) = Some 2%Z
  /\ Cost.total_tuition_fees <$> edu_cost 5000 15000 (Some s) = Some 10000%Z.
Proof. by vm_compute. Qed.

(** [C5, amended] The six substring rules are tried on the lower-cased
    input in the order associate, bachelor, master, doctoral or
    professional, postsecondary nondegree, high school or no formal; the
    first rule that matches gives the years, the cost multiple and the note.
    An input that contains both "bachelor" and "master" and does not contain
    "associate" gets four years at four times the four-year rate.  An absent
    or empty input, and one that matches no rule, get no estimate. *)
Theorem edu_cost_priority (r2 r4 : Z) (entry_edu : option string) :
  let e := Py.lower (Py.or_str entry_edu "") in
  let has p := Py.contains p e in
  (has "associate" = true ->
   edu_cost r2 r4 entry_edu
   = Some (Cost.mk 2 (2 * r2)
             "Community college estimate (tuition+fees only)."))
  /\ (has "associate" = false -> has "bachelor" = true ->
      edu_cost r2 r4 entry_edu
      = Some (Cost.mk 4 (4 * r4)
                "Public 4-year in-state estimate (tuition+fees only)."))
  /\ (has "associate" = false -> has "bachelor" = true ->
      has "master" = true ->
      Cost.years <$> edu_cost r2 r4 entry_edu = Some 4%Z
      /\ Cost.total_tuition_fees <$> edu_cost r2 r4 entry_edu
         = Some (4 * r4)%Z)
  /\ (has "associate" = false -> has "bachelor" = false ->
      has "master" = true ->
      edu_cost r2 r4 entry_edu
      = Some (Cost.mk 6 (6 * r4) "Very rough estimate (tuition+fees only)."))
  /\ (has "associate" = false -> has "bachelor" = false ->
      has "master" = false ->
      has "doctoral" || has "professional" = true ->
      edu_cost r2 r4 entry_edu
      = Some (Cost.mk 8 (8 * r4) "Very rough estimate (tuition+fees only)."))
  /\ (has "associate" = false -> has "bachelor" = false ->
      has "master" = false ->
      has "doctoral" || has "professional" = false ->
      has "postsecondary nondegree" = true ->
      edu_cost r2 r4 entry_edu
      = Some (Cost.mk 1 (1 * r2)
                "Certificate/trade estimate (tuition+fees only)."))
  /\ (has "associate" = false -> has "bachelor" = false ->
      has "master" = false ->
      has "doctoral" || has "professional" = false ->
      has "postsecondary nondegree" = false ->
      has "high school" || has "no formal" = true ->
      edu_cost r2 r4 entry_edu
      = Some (Cost.mk 0 0
                "No college required; training may still cost money."))
  /\ (has "associate" = false -> has "bachelor" = false ->
      has "master" = false ->
      has "doctoral" || has "professional" = false ->
      has "postsecondary nondegree" = false ->
      has "high school" || has "no formal" = false ->
      edu_cost r2 r4 entry_edu = None)
  /\ (Py.or_str entry_edu "" = "" -> edu_cost r2 r4 entry_edu = None).
Proof.
  intros e has.
  assert (forall p, Py.truthy p = true -> has p = true ->
                    negb (Py.truthy e) = false) as Hne.
  { intros p Hp H. by rewrite (contains_truthy p e Hp H). }
  assert (Py.truthy e = false ->
          has "associate" = false /\ has "bachelor" = false
          /\ has "master" = false
          /\ has "doctoral" || has "professional" = false
          /\ has "postsecondary nondegree" = false
          /\ has "high school" || has "no formal" = false) as Hempty.
  { unfold has. by destruct e. }
  unfold edu_cost. fold e. fold (has "associate"). fold (has "bachelor").
  fold (has "master"). fold (has "doctoral"). fold (has "professional").
  fold (has "postsecondary nondegree"). fold (has "high school").
  fold (has "no formal").
  destruct (Py.truthy e) eqn:Hte; simpl.
  - split_and!.
    + intros ->. do 2 f_equal; lia.
    + intros -> ->. do 2 f_equal; lia.
    + intros -> -> _. simpl. split; [done|]. f_equal. lia.
    + intros -> -> ->. do 2 f_equal; lia.
    + intros -> -> -> ->. do 2 f_equal; lia.
    + intros -> -> -> -> ->. do 2 f_equal; lia.
    + by intros -> -> -> -> -> ->.
    + by intros -> -> -> -> -> ->.
    + intros H. unfold e in Hte. by rewrite H in Hte.
  - destruct (Hempty eq_refl) as (H1 & H2 & H3 & H4 & H5 & H6).
    rewrite H1, H2, H3, H4, H5, H6. by split_and!.
Qed.

Lemma edu_cost_priority_witness :
  edu_cost 5000 15000 (Some "Bachelor's or Master's degree")
  = Some (Cost.mk 4 60000
            "Public 4-year in-state estimate (tuition+fees only).")
  /\ edu_cost 5000 15000 (Some "Postsecondary nondegree award")
     = Some (Cost.mk 1 5000 "Certificate/trade estimate (tuition+fees only).").
Proof.
  split.
  - by apply (edu_cost_priority 5000 15000
                (Some "Bachelor's or Master's degree")).
  - by apply (edu_cost_priority 5000 15000
                (Some "Postsecondary nondegree award")).
Defined.

(** ** The aggregation loop *)

Lemma fold_append_map {A B} (f : A -> B) (l : list A) (acc : list B) :
  fold_left (fun out x => out ++ [f x]) l acc = acc ++ (f <$> l).
Proof.
  revert acc. induction l as [|x l IH]; intros acc; simpl.
  - by rewrite app_nil_r.
  - by rewrite IH, <- app_assoc.
Qed.

Lemma aggregate_with_map estimate targets ooh wages :
  aggregate_with estimate targets ooh wages
  = career_with estimate ooh wages <$> targets.
Proof. unfold aggregate_with. by rewrite fold_append_map. Qed.

(** [C1] For every list of target titles, every two mappings and every
    estimator, the loop returns one record per target title, built from that
    title, in the order of the list: as many records as titles, and at each
    position the record of the title at that position, whether or not the
    title is a key of either mapping.  In particular so does the loop of
    [main], with [edu_cost] and [TARGET_TITLES]. *)
Theorem aggregate_one_per_target
    (estimate : option string -> option Cost.t) (targets : list string)
    (ooh : gmap string Profile.t) (wages : gmap string Wage.t) :
  length (aggregate_with estimate targets ooh wages) = length targets
  /\ (forall i : nat,
        aggregate_with estimate targets ooh wages !! i
        = career_with estimate ooh wages <$> (targets !! i))
  /\ (forall r2 r4 : Z,
        aggregate r2 r4 targets ooh wages
        = career r2 r4 ooh wages <$> targets)
  /\ length (main ooh wages) = 20.
Proof.
  split_and!.
  - by rewrite aggregate_with_map, length_fmap.
  - intros i. by rewrite aggregate_with_map, list_lookup_fmap.
  - intros r2 r4. apply aggregate_with_map.
  - unfold main, main_careers, aggregate.
    by rewrite aggregate_with_map, length_fmap.
Qed.

(** [C7] A target title whose key is in neither mapping gets a record
    with the target string as title, no summary and no entry education, the
    search address built by query-encoding the title, no wages and no
    education cost.  The record is the value of a total function, so no
    error arises, and it is the one the loop puts at the position of the
    title. *)
Theorem unmatched_target_record (r2 r4 : Z)
    (ooh : gmap string Profile.t) (wages : gmap string Wage.t)
    (title : string) :
  ooh !! norm title = None ->
  wages !! norm title = None ->
  career r2 r4 ooh wages title
  = Career.mk title
      (Career.mk_bls None None
         ("https://www.bls.gov/ooh/occupation-finder.htm?search="
          +:+ Py.quote title))
      (Career.mk_pay None None)
      None
  /\ (forall (targets : list string) (i : nat),
        targets !! i = Some title ->
        aggregate r2 r4 targets ooh wages !! i
        = Some (career r2 r4 ooh wages title)).
Proof.
  intros Ho Hw. split.
  - unfold career, career_with. by rewrite Ho, Hw.
  - intros targets i Hi. unfold aggregate.
    by rewrite aggregate_with_map, list_lookup_fmap, Hi.
Qed.

Lemma unmatched_target_record_witness :
  main ∅ ∅ !! 1%nat
  = Some (Career.mk "Registered Nurses"
            (Career.mk_bls None None
               "https://www.bls.gov/ooh/occupation-finder.htm?search=Registered%20Nurses")
            (Career.mk_pay None None) None)
  /\ career 0 0 ∅ ∅ "Nonexistent Job"
     = Career.mk "Nonexistent Job"
         (Career.mk_bls None None
            "https://www.bls.gov/ooh/occupation-finder.htm?search=Nonexistent%20Job")
         (Career.mk_pay None None) None.
Proof.
  destruct (unmatched_target_record 0 0 ∅ ∅ "Registered Nurses"
              ltac:(by vm_compute) ltac:(by vm_compute)) as [H1 H2].
  split.
  - unfold main, main_careers, MI_PUBLIC_2YR, MI_PUBLIC_4YR.
    rewrite (H2 TARGET_TITLES 1%nat ltac:(reflexivity)). by rewrite H1.
  - by destruct (unmatched_target_record 0 0 ∅ ∅ "Nonexistent Job"
                   ltac:(by vm_compute) ltac:(by vm_compute)) as [-> _].
Defined.

(** ** The address of a record *)

Lemma fallback_url_nonempty title : fallback_url title <> "".
Proof. by unfold fallback_url. Qed.

Lemma truthy_nonempty s : Py.truthy s = true <-> s <> "".
Proof. by destruct s. Qed.

(** [C10] The search address replaces the stored address of the matched
    profile when that address is null and also when it is the empty string,
    and a stored non-empty address is kept; so the address of an emitted
    record is never the empty string.  The empty string does occur as a
    stored address: [parse_ooh] stores it for an entry whose address is made
    of whitespace. *)
Theorem career_url_never_empty
    (estimate : option string -> option Cost.t)
    (ooh : gmap string Profile.t) (wages : gmap string Wage.t)
    (title : string) :
  let url := Career.ooh_url (Career.bls_of (career_with estimate ooh wages title)) in
  url <> ""
  /\ (forall p, ooh !! norm title = Some p ->
        Profile.ooh_url p = None \/ Profile.ooh_url p = Some "" ->
        url = fallback_url (Profile.title p))
  /\ (forall p u, ooh !! norm title = Some p ->
        Profile.ooh_url p = Some u -> u <> "" -> url = u)
  /\ (ooh !! norm title = None -> url = fallback_url title)
  /\ (forall targets,
        Forall (fun c => Career.ooh_url (Career.bls_of c) <> "")
               (aggregate_with estimate targets ooh wages))
  /\ (forall occ s,
        occ_url occ = Some s -> s <> "" -> Py.strip s = "" ->
        Profile.ooh_url (profile_of occ) = Some "").
Proof.
  assert (forall t,
    Career.ooh_url (Career.bls_of (career_with estimate ooh wages t)) <> "")
    as Hne.
  { intros t. unfold career_with. simpl.
    destruct (Profile.ooh_url _) as [u|]; [|apply fallback_url_nonempty].
    destruct (Py.truthy u) eqn:Hu; [|apply fallback_url_nonempty].
    by apply truthy_nonempty. }
  intros url. split_and!.
  - apply Hne.
  - intros p Hp Hurl. unfold url, career_with. rewrite Hp. simpl.
    by destruct Hurl as [-> | ->].
  - intros p u Hp Hu Hne'. unfold url, career_with. rewrite Hp. simpl.
    rewrite Hu. by apply truthy_nonempty in Hne' as ->.
  - intros Ho. unfold url, career_with. by rewrite Ho.
  - intros targets. rewrite aggregate_with_map. apply Forall_fmap.
    apply Forall_forall. intros t _. apply Hne.
  - intros occ s Hs Hne' Hstrip. apply truthy_nonempty in Hne'.
    unfold profile_of. cbn [Profile.ooh_url]. rewrite Hs.
    unfold Py.or_str. by rewrite !Hne', Hstrip.
Qed.

Lemma career_url_never_empty_witness :
  let occ := {| occ_title := Some "Carpenters"; occ_summary := None;
                occ_education := None; occ_entry_level_education := None;
                occ_url := Some "  " |} in
  parse_ooh [occ] !! "carpenters"
  = Some (Profile.mk "Carpenters" None None (Some ""))
  /\ Career.ooh_url
       (Career.bls_of (career 0 0 (parse_ooh [occ]) ∅ "Carpenters"))
     = "https://www.bls.gov/ooh/occupation-finder.htm?search=Carpenters".
Proof.
  intros occ. split; [by vm_compute|].
  destruct (career_url_never_empty (edu_cost 0 0) (parse_ooh [occ]) ∅
              "Carpenters") as (_ & H & _).
  unfold career.
  rewrite (H (Profile.mk "Carpenters" None None (Some ""))
             ltac:(by vm_compute) ltac:(by right)).
  by vm_compute.
Defined.

(** ** Worked examples *)

Example norm_registered_nurses :
  norm "  Registered   Nurses " = "registered nurses".
Proof. reflexivity. Qed.

Example words_of_title : words "  ab  c d " = ["ab"; "c"; "d"].
Proof. reflexivity. Qed.

Example quote_title :
  Py.quote "Police and Sheriff's Patrol Officers"
  = "Police%20and%20Sheriff%27s%20Patrol%20Officers".
Proof. by vm_compute. Qed.

Example quote_latin1 :
  Py.quote (String (ascii_of_nat 233) "") = "%C3%A9".
Proof. by vm_compute. Qed.

Example float_literals :
  Py.is_float_literal <$> ["60000.0"; " 12 "; "1e5"; "1_000"; ".5"; "5.";
                           "-Infinity"; "NaN"; "*"; "#"; ""; "1_"; "."; "1e"]
  = [true; true; true; true; true; true; true; true;
     false; false; false; false; false; false].
Proof. by vm_compute. Qed.

Example bachelors_or_higher :
  edu_cost 5000 15000 (Some "Bachelor's or higher degree")
  = Some (Cost.mk 4 60000
            "Public 4-year in-state estimate (tuition+fees only).").
Proof. by vm_compute. Qed.

(** The end-to-end scenario: one matched target. *)
Example registered_nurses_record :
  let ooh : gmap string Profile.t :=
    {[ "registered nurses" :=
         Profile.mk "Registered Nurses" (Some "...")
                    (Some "Bachelor's degree") None ]} in
  let wages : gmap string Wage.t :=
    {[ "registered nurses" :=
         Wage.mk (Some (FloatOfNumber 60000)) (Some (FloatOfNumber 86000)) ]} in
  aggregate 5000 15000 ["Registered Nurses"] ooh wages
  = [Career.mk "Registered Nurses"
       (Career.mk_bls (Some "...") (Some "Bachelor's degree")
          "https://www.bls.gov/ooh/occupation-finder.htm?search=Registered%20Nurses")
       (Career.mk_pay (Some (FloatOfNumber 60000))
                      (Some (FloatOfNumber 86000)))
       (Some (Cost.mk 4 60000
                "Public 4-year in-state estimate (tuition+fees only)."))].
Proof. by vm_compute. Qed.

(** * Further properties *)

(** ** The shape of a key *)

Lemma plain_spaces_sub_ws s : plain_spaces (Py.sub_ws s) = true.
Proof.
  induction s as [|c s IH]; [done|].
  rewrite sub_ws_cons. destruct (Py.is_space c) eqn:Hc.
  - destruct (starts_ws s); [exact IH|].
    unfold plain_spaces in *. simpl. by rewrite IH.
  - unfold plain_spaces in *. simpl. by rewrite Hc, IH.
Qed.

Lemma lower_norm s : Py.lower (norm s) = norm s.
Proof. unfold norm. by rewrite lower_sub_ws, lower_strip, lower_idem. Qed.

Lemma all_ws_lower s : all_ws (Py.lower s) = all_ws s.
Proof.
  unfold all_ws. induction s as [|c s IH]; [done|].
  simpl. by rewrite is_space_lower_char, IH.
Qed.

Lemma lstrip_empty s : Py.lstrip s = EmptyString <-> all_ws s = true.
Proof.
  unfold all_ws. induction s as [|c s IH]; [done|]. simpl.
  destruct (Py.is_space c); simpl; [exact IH|]. by split.
Qed.

Lemma rstrip_empty s : Py.rstrip s = EmptyString <-> all_ws s = true.
Proof.
  unfold all_ws. induction s as [|c s IH]; [done|]. simpl.
  destruct (Py.rstrip s) eqn:Hr.
  - destruct (Py.is_space c); simpl; [|by split].
    split; [intros _; by apply IH|done].
  - split; [done|]. intros [_ H]%andb_true_iff. by apply IH in H.
Qed.

Lemma all_ws_lstrip s : all_ws (Py.lstrip s) = all_ws s.
Proof.
  unfold all_ws. induction s as [|c s IH]; [done|]. simpl.
  destruct (Py.is_space c) eqn:Hc; [exact IH|]. simpl. by rewrite Hc.
Qed.

Lemma strip_empty s : Py.strip s = EmptyString <-> all_ws s = true.
Proof. unfold Py.strip. by rewrite rstrip_empty, all_ws_lstrip. Qed.

Lemma sub_ws_empty s : Py.sub_ws s = EmptyString <-> s = EmptyString.
Proof.
  split; [|by intros ->]. destruct s; [done|].
  intros H. by destruct (sub_ws_nonempty _ _ H).
Qed.

Lemma norm_empty s : norm s = EmptyString <-> all_ws s = true.
Proof. unfold norm. by rewrite sub_ws_empty, strip_empty, all_ws_lower. Qed.

Lemma strip_strip s : Py.strip (Py.strip s) = Py.strip s.
Proof. apply strip_id; [apply starts_ws_strip|apply ends_ws_strip]. Qed.

Lemma norm_strip s : norm (Py.strip s) = norm s.
Proof. unfold norm. by rewrite lower_strip, strip_strip. Qed.

Lemma words_sub_ws s : words (Py.sub_ws s) = words s.
Proof.
  induction s as [|c s IH]; [done|].
  rewrite sub_ws_cons, (words_cons c s).
  destruct (Py.is_space c) eqn:Hc.
  - destruct (starts_ws s); [exact IH|].
    by rewrite words_cons, is_space_sp.
  - by rewrite words_cons, Hc, starts_ws_sub_ws, IH.
Qed.

Lemma norm_sub_ws s : norm (Py.sub_ws s) = norm s.
Proof. by rewrite !norm_words, words_sub_ws. Qed.

(** [X1] A key is in lower case and its only whitespace characters are
    plain spaces: tabs, line breaks and no-break spaces of the title do not
    survive. *)
Theorem norm_key_shape (s : string) :
  Py.lower (norm s) = norm s /\ plain_spaces (norm s) = true.
Proof. split; [apply lower_norm|apply plain_spaces_sub_ws]. Qed.

(** [X2] The key is empty exactly for a blank title: the empty string or
    one made of whitespace only. *)
Theorem norm_empty_iff_blank (s : string) :
  norm s = "" <-> all_ws s = true.
Proof. apply norm_empty. Qed.

Lemma norm_empty_iff_blank_witness : norm "   " = "".
Proof. by apply (norm_empty_iff_blank "   "). Defined.

(** [X3] Normalising absorbs each of its own steps: stripping,
    lower-casing or collapsing the whitespace of a title beforehand does not
    change its key.  In particular the key [parse_ooh] computes from the
    stripped title is the key of the raw title text. *)
Theorem norm_absorbs_steps (s : string) :
  norm (Py.strip s) = norm s
  /\ norm (Py.lower s) = norm s
  /\ norm (Py.sub_ws s) = norm s
  /\ norm (squeeze s) = norm s.
Proof.
  split_and!.
  - apply norm_strip.
  - unfold norm. by rewrite lower_idem.
  - apply norm_sub_ws.
  - unfold squeeze. by rewrite norm_sub_ws, norm_strip.
Qed.

(** ** What [parse_ooh] stores *)

Lemma nonblank_head s :
  s <> EmptyString -> starts_ws s = false -> all_ws s = false.
Proof. destruct s as [|c s]; [done|]. unfold all_ws. simpl. by intros _ ->. Qed.

Lemma occ_key_title_stripped occ :
  starts_ws (occ_key_title occ) = false /\ ends_ws (occ_key_title occ) = false.
Proof. split; [apply starts_ws_strip|apply ends_ws_strip]. Qed.

Lemma occ_key_nonempty occ :
  Py.truthy (occ_key_title occ) = true ->
  norm (occ_key_title occ) <> EmptyString.
Proof.
  intros Ht%truthy_nonempty Hn. apply norm_empty in Hn.
  rewrite nonblank_head in Hn; [done|done|apply starts_ws_strip].
Qed.

Lemma or_str_some_empty (x : option string) :
  Py.or_str x "" = match x with Some s => s | None => "" end.
Proof. destruct x as [[|c s]|]; reflexivity. Qed.

Lemma occ_key_title_blank occ :
  Py.truthy (occ_key_title occ) = false <->
  occ_title occ = None
  \/ exists s, occ_title occ = Some s /\ all_ws s = true.
Proof.
  unfold occ_key_title. rewrite or_str_some_empty.
  destruct (occ_title occ) as [s|].
  - split.
    + intros H. right. exists s. split; [done|].
      apply strip_empty. by destruct (Py.strip s).
    + intros [[=]|(s' & [= <-] & H)]. apply strip_empty in H. by rewrite H.
  - split; [by left|done].
Qed.

Lemma parse_ooh_fold_inv occs out k p :
  fold_left parse_ooh_step occs out !! k = Some p ->
  out !! k = Some p
  \/ exists occ, occ ∈ occs /\ Py.truthy (occ_key_title occ) = true
                 /\ k = norm (occ_key_title occ) /\ p = profile_of occ.
Proof.
  revert out. induction occs as [|o occs IH]; intros out; [by left|].
  simpl. intros [H|(occ & Hin & ?)]%IH.
  - unfold parse_ooh_step in H.
    destruct (Py.truthy (occ_key_title o)) eqn:Ho; simpl in H; [|by left].
    destruct (decide (norm (occ_key_title o) = k)) as [<-|Hne].
    + rewrite lookup_insert_eq in H. injection H as <-.
      right. exists o. split; [by left|done].
    + rewrite lookup_insert_ne in H by done. by left.
  - right. exists occ. split; [by right|done].
Qed.

Lemma parse_ooh_fold_size occs out :
  size (fold_left parse_ooh_step occs out) <= size out + length occs.
Proof.
  revert out. induction occs as [|o occs IH]; intros out; simpl; [lia|].
  etrans; [apply IH|]. unfold parse_ooh_step.
  destruct (Py.truthy (occ_key_title o)); simpl; [|lia].
  rewrite map_size_insert. destruct (out !! _); simpl; lia.
Qed.

(** [X4] Every record of the mapping [parse_ooh] returns was built from
    an entry of the input whose title is not blank, and is stored under the
    key of that entry's raw title text.  The stored title is the stripped
    one: not empty, without whitespace at either end, and normalising to the
    key it is stored under. *)
Theorem parse_ooh_entries (occs : list occupation) (k : string)
    (p : Profile.t) :
  parse_ooh occs !! k = Some p ->
  (exists occ raw, occ ∈ occs /\ occ_title occ = Some raw
                   /\ p = profile_of occ /\ k = norm raw)
  /\ norm (Profile.title p) = k
  /\ Profile.title p <> ""
  /\ starts_ws (Profile.title p) = false
  /\ ends_ws (Profile.title p) = false.
Proof.
  intros [H|(occ & Hin & Ht & -> & ->)]%parse_ooh_fold_inv;
    [by rewrite lookup_empty in H|].
  split_and!.
  - destruct (occ_title occ) as [raw|] eqn:Hraw.
    + exists occ, raw. split_and!; try done.
      unfold occ_key_title. by rewrite Hraw, or_str_some_empty, norm_strip.
    + unfold occ_key_title in Ht. by rewrite Hraw in Ht.
  - done.
  - by apply truthy_nonempty.
  - apply starts_ws_strip.
  - apply ends_ws_strip.
Qed.

Lemma parse_ooh_entries_witness :
  let occ := {| occ_title := Some "  Dental   Hygienists ";
                occ_summary := None; occ_education := None;
                occ_entry_level_education := None; occ_url := None |} in
  norm (Profile.title (profile_of occ)) = "dental hygienists"
  /\ Profile.title (profile_of occ) = "Dental   Hygienists".
Proof.
  intros occ.
  destruct (parse_ooh_entries [occ] "dental hygienists" (profile_of occ)
              ltac:(by vm_compute)) as (_ & H & _).
  split; [exact H|reflexivity].
Defined.

(** [X5] The empty string is never a key of the mapping [parse_ooh]
    returns. *)
Theorem parse_ooh_no_empty_key (occs : list occupation) :
  parse_ooh occs !! "" = None.
Proof.
  destruct (parse_ooh occs !! "") as [p|] eqn:H; [|done].
  apply parse_ooh_fold_inv in H as [H|(occ & _ & Ht & Hk & _)];
    [by rewrite lookup_empty in H|].
  by destruct (occ_key_nonempty occ Ht).
Qed.

(** [X6] An entry without a title element, or whose title is empty or
    made of whitespace only, is skipped: the mapping is the one obtained
    without that entry, wherever the entry stands. *)
Theorem parse_ooh_skips_blank_title (pre post : list occupation)
    (occ : occupation) :
  (occ_title occ = None
   \/ exists s, occ_title occ = Some s /\ all_ws s = true) ->
  parse_ooh (pre ++ occ :: post) = parse_ooh (pre ++ post).
Proof.
  intros H%occ_key_title_blank. unfold parse_ooh.
  rewrite !fold_left_app. simpl. unfold parse_ooh_step at 2. by rewrite H.
Qed.

Lemma parse_ooh_skips_blank_title_witness :
  let blank := {| occ_title := Some "   "; occ_summary := Some "x";
                  occ_education := None; occ_entry_level_education := None;
                  occ_url := None |} in
  let nurse := {| occ_title := Some "Registered Nurses"; occ_summary := None;
                  occ_education := None; occ_entry_level_education := None;
                  occ_url := None |} in
  parse_ooh [nurse; blank] = parse_ooh [nurse].
Proof.
  intros blank nurse.
  apply (parse_ooh_skips_blank_title [nurse] [] blank).
  right. exists "   ". split; reflexivity.
Defined.

(** [X7] The mapping has at most as many records as the input has
    entries. *)
Theorem parse_ooh_size (occs : list occupation) :
  size (parse_ooh occs) <= length occs.
Proof.
  unfold parse_ooh. etrans; [apply parse_ooh_fold_size|].
  by rewrite map_size_empty.
Qed.

Lemma squeeze_normal s :
  has_ws_pair (squeeze s) = false
  /\ starts_ws (squeeze s) = false /\ ends_ws (squeeze s) = false.
Proof.
  unfold squeeze. split_and!.
  - apply has_ws_pair_sub_ws.
  - by rewrite starts_ws_sub_ws, starts_ws_strip.
  - by rewrite ends_ws_sub_ws, ends_ws_strip.
Qed.

(** [X8] The text fields of a record built from an entry are
    whitespace-normalised: a summary and an entry education have no two
    whitespace characters in a row and none at either end, and an address
    has none at either end.  The summary is absent exactly when the entry
    has no summary element. *)
Theorem profile_fields_normalised (occ : occupation) :
  let p := profile_of occ in
  (forall s, Profile.summary p = Some s ->
     has_ws_pair s = false /\ starts_ws s = false /\ ends_ws s = false)
  /\ (forall e, Profile.entry_education p = Some e ->
        has_ws_pair e = false /\ starts_ws e = false /\ ends_ws e = false)
  /\ (forall u, Profile.ooh_url p = Some u ->
        starts_ws u = false /\ ends_ws u = false)
  /\ (Profile.summary p = None <-> occ_summary occ = None).
Proof.
  unfold profile_of. cbn [Profile.summary Profile.entry_education
                          Profile.ooh_url]. split_and!.
  - intros s. destruct (occ_summary occ) as [t|]; [|done].
    destruct (Py.truthy t) eqn:Ht; intros [= <-]; [apply squeeze_normal|].
    by destruct t.
  - intros e. destruct (Py.truthy _); [|done].
    intros [= <-]. apply squeeze_normal.
  - intros u. destruct (Py.truthy _); [|done].
    intros [= <-]. split; [apply starts_ws_strip|apply ends_ws_strip].
  - destruct (occ_summary occ) as [t|]; [|done].
    by destruct (Py.truthy t).
Qed.

Lemma profile_fields_normalised_witness :
  let occ := {| occ_title := Some "Carpenters";
                occ_summary := Some "  Build   and repair  ";
                occ_education := Some " High school  diploma ";
                occ_entry_level_education := None;
                occ_url := Some " https://www.bls.gov/ooh/x.htm " |} in
  has_ws_pair "Build and repair" = false
  /\ Profile.summary (profile_of occ) = Some "Build and repair".
Proof.
  intros occ.
  destruct (profile_fields_normalised occ) as (H & _).
  destruct (H "Build and repair" ltac:(by vm_compute)) as (H1 & _).
  split; [exact H1|by vm_compute].
Defined.

(** [X9] Where the entry education comes from: a non-empty [education]
    text is used, whatever [entry_level_education] holds; otherwise a
    non-empty [entry_level_education] text is used; the field is null
    exactly when both are absent or empty.  A text made of whitespace only
    counts as present and is stored as the empty string. *)
Theorem entry_education_source (occ : occupation) :
  let p := profile_of occ in
  let unset (x : option string) := x = None \/ x = Some "" in
  (forall s, occ_education occ = Some s -> s <> "" ->
     Profile.entry_education p = Some (squeeze s))
  /\ (forall s, unset (occ_education occ) ->
        occ_entry_level_education occ = Some s -> s <> "" ->
        Profile.entry_education p = Some (squeeze s))
  /\ (Profile.entry_education p = None <->
      unset (occ_education occ) /\ unset (occ_entry_level_education occ))
  /\ (forall s, occ_education occ = Some s -> s <> "" -> all_ws s = true ->
        Profile.entry_education p = Some "").
Proof.
  unfold profile_of. cbn [Profile.entry_education].
  assert (forall s, s <> "" -> Py.truthy s = true) as Htr
    by (by intros []).
  split_and!.
  - intros s -> Hs. unfold Py.or_str. by rewrite !(Htr s Hs).
  - intros s [-> | ->] -> Hs; unfold Py.or_str; simpl; by rewrite !(Htr s Hs).
  - destruct (occ_education occ) as [[|c s]|];
      destruct (occ_entry_level_education occ) as [[|c' s']|]; simpl;
      (split; [try done; intros _; split; by eauto
              |try done; intros [[?|?] [?|?]]; done]).
  - intros s -> Hs Hws. unfold Py.or_str. rewrite !(Htr s Hs).
    unfold squeeze. apply strip_empty in Hws. by rewrite Hws.
Qed.

Lemma entry_education_source_witness :
  let occ := {| occ_title := Some "Carpenters"; occ_summary := None;
                occ_education := Some "  ";
                occ_entry_level_education := Some "High school diploma";
                occ_url := None |} in
  Profile.entry_education (profile_of occ) = Some "".
Proof.
  intros occ.
  destruct (entry_education_source occ) as (_ & _ & _ & H).
  by apply (H "  ").
Defined.

(** ** Labels of a row *)

Lemma filter_align label cols cells :
  (filter (fun p : string * cell => p.1 = label) (align cols cells)).*1
  = filter (fun c => c = label) cols.
Proof.
  revert cells. induction cols as [|c cols IH]; intros cells; [done|].
  cbn [align]. destruct (decide (c = label)) as [Hc|Hc].
  - rewrite (filter_cons_True (fun p : string * cell => p.1 = label))
      by exact Hc.
    rewrite (filter_cons_True (fun c : string => c = label)) by exact Hc.
    rewrite fmap_cons. cbn [fst]. f_equal. apply IH.
  - rewrite (filter_cons_False (fun p : string * cell => p.1 = label))
      by exact Hc.
    rewrite (filter_cons_False (fun c : string => c = label)) by exact Hc.
    apply IH.
Qed.

Lemma series_get_count label (r : series) :
  match length (filter (fun p : string * cell => p.1 = label) r) with
  | 0 => series_get label r = Absent
  | 1 => exists x, series_get label r = Scalar x
  | _ => exists cs, series_get label r = SubSeries cs
  end.
Proof.
  unfold series_get.
  destruct (filter _ r) as [|p [|q l]]; simpl; eauto.
Qed.

Lemma align_count label cols cells :
  length (filter (fun p : string * cell => p.1 = label) (align cols cells))
  = length (filter (fun c => c = label) cols).
Proof. by rewrite <- (filter_align label cols cells), length_fmap. Qed.

Lemma series_get_member label cols cells :
  label ∈ cols -> series_get label (align cols cells) <> Absent.
Proof.
  intros Hin. pose proof (series_get_count label (align cols cells)) as H.
  rewrite align_count in H.
  assert (label ∈ filter (fun c => c = label) cols) as Hf
    by (by apply list_elem_of_filter).
  destruct (filter _ cols) as [|a [|b l]]; simpl in H.
  - by apply elem_of_nil in Hf.
  - destruct H as [x ->]. done.
  - destruct H as [cs ->]. done.
Qed.

Lemma series_get_unique label cols cells :
  NoDup cols -> label ∈ cols ->
  exists x, series_get label (align cols cells) = Scalar x.
Proof.
  intros Hnd Hin. pose proof (series_get_count label (align cols cells)) as H.
  rewrite align_count in H.
  assert (label ∈ filter (fun c => c = label) cols) as Hf
    by (by apply list_elem_of_filter).
  pose proof (NoDup_filter (fun c => c = label) _ Hnd) as Hnd'.
  destruct (filter _ cols) as [|a [|b l]] eqn:Hfl; simpl in H.
  - by apply elem_of_nil in Hf.
  - done.
  - assert (a ∈ filter (fun c => c = label) cols) as Ha
      by (rewrite Hfl; by left).
    assert (b ∈ filter (fun c => c = label) cols) as Hb
      by (rewrite Hfl; right; by left).
    apply list_elem_of_filter in Ha as [-> _].
    apply list_elem_of_filter in Hb as [-> _].
    apply NoDup_cons in Hnd' as [Hn _]. destruct Hn. by left.
Qed.

Lemma series_get_duplicated label a b c cells :
  exists cs,
    series_get label (align (a ++ label :: b ++ label :: c) cells)
    = SubSeries cs.
Proof.
  pose proof (series_get_count label
                (align (a ++ label :: b ++ label :: c) cells)) as H.
  rewrite align_count in H.
  rewrite filter_app, filter_cons, decide_True in H by done.
  rewrite filter_app, filter_cons, decide_True in H by done.
  rewrite length_app in H. simpl in H. rewrite length_app in H. simpl in H.
  by replace (_ + S (_ + S _)) with (S (S (length (filter (λ c0, c0 = label) a)
    + (length (filter (λ c0, c0 = label) b)
       + length (filter (λ c0, c0 = label) c))))) in H by lia.
Qed.

(** ** Resolved columns *)

Lemma find_elem_of {A} (f : A -> bool) l x :
  List.find f l = Some x -> x ∈ l /\ f x = true.
Proof.
  intros [Hin Hf]%find_some. split; [by apply list_elem_of_In|done].
Qed.

Lemma is_p25_col_truthy c : is_p25_col c = true -> Py.truthy c = true.
Proof. by destruct c. Qed.

Lemma is_med_col_truthy c : is_med_col c = true -> Py.truthy c = true.
Proof. by destruct c. Qed.

Lemma title_col_ok cols :
  cols <> [] -> exists t, title_col cols = Ok t /\ t ∈ cols.
Proof.
  destruct cols as [|c cols]; [done|]. intros _. unfold title_col. simpl.
  destruct (is_title_col c) eqn:Hc; simpl.
  - exists c. split; [done|by left].
  - destruct (List.find is_title_col cols) as [t|] eqn:Hf; simpl.
    + exists t. split; [done|]. right. by apply find_elem_of in Hf as [? _].
    + exists c. split; [done|by left].
Qed.

Lemma title_col_inv cols t :
  title_col cols = Ok t -> t ∈ cols.
Proof.
  destruct cols as [|c cols]; [done|]. intros H.
  destruct (title_col_ok (c :: cols)) as (t' & H' & Hin); [done|]. congruence.
Qed.

Lemma title_col_raise cols e :
  title_col cols = Raise e -> cols = [] /\ e = IndexError.
Proof.
  destruct cols as [|c cols]; [by intros [= <-]|]. intros H.
  destruct (title_col_ok (c :: cols)) as (t' & H' & _); [done|]. congruence.
Qed.

(** ** Which errors the row loop raises *)

Lemma py_float_raise_kind v e :
  py_float v = Raise e ->
  e = ValueError \/ e = TypeError \/ e = OverflowError.
Proof.
  destruct v as [q|s|d]; simpl.
  - destruct (float_overflows q); [|done]. intros [= <-]. auto.
  - destruct (Py.is_float_literal s); [done|]. intros [= <-]. auto.
  - intros [= <-]. auto.
Qed.

Lemma wage_field_raise col r e :
  wage_field col r = Raise e ->
  exists c, col = Some c /\ Py.truthy c = true
    /\ ((e = KeyError /\ series_get c r = Absent)
        \/ (e = ValueError /\ exists cs, series_get c r = SubSeries cs)
        \/ (exists v, series_get c r = Scalar (Some v)
                      /\ py_float v = Raise e
                      /\ (e = ValueError \/ e = TypeError
                          \/ e = OverflowError))).
Proof.
  destruct col as [c|]; [|done]. unfold wage_field.
  destruct (Py.truthy c) eqn:Hc; [|done]. simpl.
  intros H. exists c. split; [done|]. split; [done|].
  destruct (series_get c r) as [|[v|]|cs]; try done.
  - injection H as <-. by left.
  - right; right. exists v. split; [done|].
    destruct (py_float v) as [x|e'] eqn:Hv; simpl in H; [done|].
    injection H as <-. split; [done|]. by apply (py_float_raise_kind v).
  - injection H as <-. right; left. eauto.
Qed.

Lemma rows_raise_inv tcol pcol mcol rows out e :
  load_oews_rows tcol pcol mcol rows out = Raise e ->
  exists r, r ∈ rows /\ is_Some (row_title tcol r)
            /\ (wage_field pcol r = Raise e \/ wage_field mcol r = Raise e).
Proof.
  revert out. induction rows as [|r rows IH]; intros out; [done|].
  cbn [load_oews_rows].
  destruct (load_oews_step tcol pcol mcol out r) as [o|e'] eqn:Hstep; simpl.
  - intros (r' & Hin & ?)%IH. exists r'. split; [by right|done].
  - intros [= ->]. exists r. split; [by left|].
    unfold load_oews_step in Hstep.
    destruct (row_title tcol r) as [t|]; [|done]. split; [by eexists|].
    destruct (wage_field pcol r) as [p|e1]; simpl in Hstep.
    + destruct (wage_field mcol r) as [m|e2]; simpl in Hstep; [done|].
      right. congruence.
    + left. congruence.
Qed.

Lemma rows_all_skipped tcol pcol mcol rows out :
  Forall (fun r => row_title tcol r = None) rows ->
  load_oews_rows tcol pcol mcol rows out = Ok out.
Proof.
  induction 1 as [|r rows Hr _ IH]; [done|].
  cbn [load_oews_rows]. by rewrite (step_skip _ _ _ _ _ Hr).
Qed.

(** ** Errors of [load_oews] *)

Lemma wage_field_not_index col r : wage_field col r <> Raise IndexError.
Proof.
  intros (c & _ & _ & [[[=] _]|[[[=] _]|(v & _ & _ & [[=]|[[=]|[=]]])]])%wage_field_raise.
Qed.

Lemma wage_field_key_error col r :
  wage_field col r = Raise KeyError ->
  exists c, col = Some c /\ series_get c r = Absent.
Proof.
  intros (c & -> & _ & [[_ H]|[[[=] _]|(v & _ & _ & [[=]|[[=]|[=]]])]])%wage_field_raise.
  by exists c.
Qed.

Lemma load_oews_index_error df :
  load_oews df = Raise IndexError <-> columns df = [].
Proof.
  rewrite load_oews_unfold. split.
  - destruct (title_col (norm <$> columns df)) as [tcol|e] eqn:Ht; simpl.
    + intros (r & _ & _ & [H|H])%rows_raise_inv;
        by apply wage_field_not_index in H.
    + intros _. apply title_col_raise in Ht as [Hnil _].
      by apply fmap_nil_inv in Hnil.
  - by intros ->.
Qed.

Lemma load_oews_not_key_error df : load_oews df <> Raise KeyError.
Proof.
  rewrite load_oews_unfold.
  destruct (title_col (norm <$> columns df)) as [tcol|e] eqn:Ht; simpl.
  - intros (r & Hin & _ & H)%rows_raise_inv.
    apply list_elem_of_fmap in Hin as (cells & -> & _).
    destruct H as [H|H]; apply wage_field_key_error in H as (c & Hc & Habs);
      apply find_elem_of in Hc as [Hc _];
      by apply (series_get_member c _ cells) in Hc.
  - apply title_col_raise in Ht as [_ ->]. done.
Qed.

(** [X10] [load_oews] raises [IndexError] exactly when the table has no
    column at all: the default [df.columns[0]] of the title column search
    is evaluated before the search. *)
Theorem load_oews_index_error_iff (df : dataframe) :
  load_oews df = Raise IndexError <-> columns df = [].
Proof. apply load_oews_index_error. Qed.

Lemma load_oews_index_error_iff_witness :
  load_oews {| columns := []; data := [[Some (VText "Carpenters")]] |}
  = Raise IndexError.
Proof.
  by apply (load_oews_index_error_iff
              {| columns := []; data := [[Some (VText "Carpenters")]] |}).
Defined.

(** [X11] The errors of [load_oews]: an [IndexError] for a table without
    columns, and otherwise a [ValueError], a [TypeError] or an
    [OverflowError] from a wage cell.  It never raises [KeyError]: the
    labels it looks up in a row are labels of the table. *)
Theorem load_oews_error_kinds (df : dataframe) (e : exn) :
  load_oews df = Raise e ->
  (e = IndexError /\ columns df = [])
  \/ (columns df <> []
      /\ (e = ValueError \/ e = TypeError \/ e = OverflowError)).
Proof.
  intros H.
  assert (e <> IndexError -> columns df <> []) as Hcols.
  { intros He Hnil. apply load_oews_index_error in Hnil. congruence. }
  destruct e.
  - left. split; [done|]. by apply load_oews_index_error.
  - by destruct (load_oews_not_key_error df).
  - right. split; [by apply Hcols|auto].
  - right. split; [by apply Hcols|auto].
  - right. split; [by apply Hcols|auto].
Qed.

Lemma load_oews_error_kinds_witness :
  let df := {| columns := ["Occupation Title"; "Annual median wage"];
               data := [[Some (VText "Surgeons"); Some (VText "#")]] |} in
  load_oews df = Raise ValueError /\ columns df <> [].
Proof.
  intros df. assert (load_oews df = Raise ValueError) as H by (by vm_compute).
  split; [exact H|].
  by destruct (load_oews_error_kinds df ValueError H) as [[[=] _]|[Hne _]].
Defined.

Lemma wage_field_clean cols cells col :
  NoDup cols ->
  (forall c, col = Some c -> c ∈ cols) ->
  (forall c x, col = Some c ->
     series_get c (align cols cells) = Scalar x -> clean_cell x = true) ->
  raises (wage_field col (align cols cells)) = false.
Proof.
  intros Hnd Hin Hclean. destruct col as [c|]; [|done]. unfold wage_field.
  destruct (Py.truthy c); [|done]. simpl.
  destruct (series_get_unique c cols cells Hnd (Hin c eq_refl)) as [x Hx].
  rewrite Hx. specialize (Hclean c x eq_refl Hx).
  destruct x as [[q| |]|]; try done. simpl in *.
  by destruct (float_overflows q).
Qed.

(** [X12] On a table with at least one column, pairwise different
    normalised column names, and under the resolved wage columns only
    missing cells and numbers that fit a float, [load_oews] returns a
    mapping: it does not raise. *)
Theorem load_oews_total_on_clean_table (df : dataframe) :
  let cols := norm <$> columns df in
  columns df <> [] ->
  NoDup cols ->
  Forall (fun cells => forall c x,
            p25_col cols = Some c \/ med_col cols = Some c ->
            series_get c (align cols cells) = Scalar x ->
            clean_cell x = true) (data df) ->
  exists out, load_oews df = Ok out.
Proof.
  intros cols Hne Hnd Hclean.
  destruct (title_col_ok cols) as (tcol & Ht & _).
  { unfold cols. by destruct (columns df). }
  rewrite load_oews_unfold. fold cols. rewrite Ht. simpl.
  apply rows_total, Forall_fmap.
  eapply Forall_impl; [exact Hclean|]. intros cells Hc. simpl.
  unfold row_raises. destruct (row_title _ _); [|done].
  rewrite !wage_field_clean; try done.
  - intros c Hm. by apply find_elem_of in Hm as [? _].
  - intros c x Hm. apply Hc. by right.
  - intros c Hp. by apply find_elem_of in Hp as [? _].
  - intros c x Hp. apply Hc. by left.
Qed.

Lemma load_oews_total_on_clean_table_witness :
  exists out,
    load_oews {| columns := ["Occupation Title"; "Annual 25th percentile wage";
                             "Annual median wage"];
                 data := [[Some (VText "Carpenters"); Some (VNumber 40000);
                           None];
                          [Some (VText "Firefighters"); None;
                           Some (VNumber 50000)]] |} = Ok out.
Proof.
  apply load_oews_total_on_clean_table.
  - done.
  - apply (bool_decide_unpack _). by vm_compute.
  - apply Forall_forall. intros cells Hin c x Hc.
    assert (c = "annual 25th percentile wage" \/ c = "annual median wage")
      as Hc'.
    { destruct Hc as [Hc|Hc]; vm_compute in Hc; injection Hc as <-; auto. }
    clear Hc. cbn [data] in Hin.
    apply elem_of_cons in Hin as [->|Hin];
      [|apply elem_of_cons in Hin as [->|Hin]; [|by apply elem_of_nil in Hin]];
      destruct Hc' as [-> | ->]; vm_compute; by intros [= <-].
Defined.

(** [X13] When the label of the title column occurs twice among the
    normalised column names, the title of every row is a sub-Series and no
    text: all rows are skipped and the mapping is empty. *)
Theorem load_oews_duplicate_title_label (df : dataframe) (tcol : string)
    (a b c : list string) :
  title_col (norm <$> columns df) = Ok tcol ->
  norm <$> columns df = a ++ tcol :: b ++ tcol :: c ->
  load_oews df = Ok ∅.
Proof.
  intros Ht Hcols. rewrite load_oews_unfold, Ht. simpl.
  apply rows_all_skipped, Forall_fmap, Forall_forall. intros cells _. simpl.
  unfold row_title. rewrite Hcols.
  by destruct (series_get_duplicated tcol a b c cells) as [cs ->].
Qed.

Lemma load_oews_duplicate_title_label_witness :
  load_oews {| columns := ["Occupation Title"; "occupation  title";
                           "Annual median wage"];
               data := [[Some (VText "Carpenters"); Some (VText "Carpenters");
                         Some (VNumber 50000)]] |} = Ok ∅.
Proof.
  apply (load_oews_duplicate_title_label _ "occupation title"
           [] [] ["annual median wage"]); reflexivity.
Defined.

(** ** The estimator's results *)

(** [X14] Whatever the input, an estimate is one of the six records of
    the table: its years are between 0 and 8, and with rates that are not
    negative its cost is not negative. *)
Theorem edu_cost_range (r2 r4 : Z) (entry_edu : option string) (c : Cost.t) :
  edu_cost r2 r4 entry_edu = Some c ->
  c ∈ cost_table r2 r4
  /\ (0 <= Cost.years c <= 8)%Z
  /\ ((0 <= r2)%Z -> (0 <= r4)%Z -> (0 <= Cost.total_tuition_fees c)%Z).
Proof.
  unfold edu_cost, cost_table.
  repeat (match goal with
          | |- context [if ?b then _ else _] => destruct b
          end);
    intros [= <-]; (split; [set_solver|]); simpl; lia.
Qed.

Lemma edu_cost_range_witness :
  (0 <= 4 <= 8)%Z /\ (0 <= 15000 * 4)%Z.
Proof.
  destruct (edu_cost_range 5000 15000 (Some "Bachelor's degree")
              (Cost.mk 4 (15000 * 4)
                 "Public 4-year in-state estimate (tuition+fees only).")
              ltac:(by vm_compute)) as (_ & H1 & H2).
  split; [exact H1|]. apply H2; lia.
Defined.

(** [X15] The estimator ignores letter case: two inputs with the same
    lower-cased text get the same answer, and an empty text is answered
    like an absent one. *)
Theorem edu_cost_case_insensitive (r2 r4 : Z) (s1 s2 : string) :
  (Py.lower s1 = Py.lower s2 ->
   edu_cost r2 r4 (Some s1) = edu_cost r2 r4 (Some s2))
  /\ edu_cost r2 r4 (Some (Py.lower s1)) = edu_cost r2 r4 (Some s1)
  /\ edu_cost r2 r4 (Some "") = edu_cost r2 r4 None.
Proof.
  split_and!.
  - intros H. unfold edu_cost. by rewrite !or_str_some_empty, H.
  - unfold edu_cost. by rewrite !or_str_some_empty, lower_idem.
  - done.
Qed.

Lemma edu_cost_case_insensitive_witness :
  edu_cost 5000 15000 (Some "MASTER'S DEGREE")
  = edu_cost 5000 15000 (Some "Master's degree").
Proof.
  by apply (edu_cost_case_insensitive 5000 15000
              "MASTER'S DEGREE" "Master's degree").
Defined.

(** ** Records of the aggregation loop *)

(** [X16] With the profiles [parse_ooh] built, the title of the record
    emitted for a target has the key of the target: it is the target itself
    or the stored title of the matching occupation, which differs from the
    target in letter case and whitespace at most. *)
Theorem career_title_matches_target
    (estimate : option string -> option Cost.t) (occs : list occupation)
    (wages : gmap string Wage.t) (title : string) :
  norm (Career.title (career_with estimate (parse_ooh occs) wages title))
  = norm title.
Proof.
  unfold career_with. cbn [Career.title].
  destruct (parse_ooh occs !! norm title) as [p|] eqn:Hp; simpl; [|done].
  apply parse_ooh_fold_inv in Hp as [Hp|(occ & _ & _ & -> & ->)];
    [by rewrite lookup_empty in Hp|done].
Qed.

(** [X17] The loop works title by title: the records of two lists of
    targets put end to end are the records of the first followed by those
    of the second. *)
Theorem aggregate_app
    (estimate : option string -> option Cost.t) (t1 t2 : list string)
    (ooh : gmap string Profile.t) (wages : gmap string Wage.t) :
  aggregate_with estimate (t1 ++ t2) ooh wages
  = aggregate_with estimate t1 ooh wages
    ++ aggregate_with estimate t2 ooh wages.
Proof. by rewrite !aggregate_with_map, fmap_app. Qed.

(** [X18] A target that matches a profile is looked up by its key alone:
    two spellings of the target with the same key give the same record. *)
Theorem career_matched_by_key
    (estimate : option string -> option Cost.t)
    (ooh : gmap string Profile.t) (wages : gmap string Wage.t)
    (t1 t2 : string) :
  norm t1 = norm t2 ->
  is_Some (ooh !! norm t1) ->
  career_with estimate ooh wages t1 = career_with estimate ooh wages t2.
Proof.
  intros Hk [p Hp]. unfold career_with. rewrite <- Hk. by rewrite Hp.
Qed.

Lemma career_matched_by_key_witness :
  let ooh : gmap string Profile.t :=
    {[ "registered nurses" :=
         Profile.mk "Registered Nurses" None (Some "Bachelor's degree") None ]} in
  career 0 0 ooh ∅ "registered  NURSES" = career 0 0 ooh ∅ "Registered Nurses".
Proof.
  intros ooh. unfold career.
  apply (career_matched_by_key (edu_cost 0 0) ooh ∅
           "registered  NURSES" "Registered Nurses").
  - by vm_compute.
  - vm_compute. by eexists.
Defined.

(** ** The query encoding *)

Lemma str_forallb_app f a b :
  str_forallb f (a +:+ b) = str_forallb f a && str_forallb f b.
Proof.
  induction a as [|c a IH]; [done|].
  rewrite str_app_cons. simpl. by rewrite IH, andb_assoc.
Qed.

Lemma quote_cons c s :
  Py.quote (String c s) = Py.quote (String c EmptyString) +:+ Py.quote s.
Proof.
  cbn [Py.quote]. unfold Py.utf8.
  destruct (Nat.ltb (nat_of_ascii c) 128); cbn [foldr].
  - by rewrite str_app_assoc.
  - by rewrite !str_app_assoc.
Qed.

Lemma quote_char_url c :
  str_forallb url_char (Py.quote (String c EmptyString)) = true.
Proof. by destruct c as [[] [] [] [] [] [] [] []]; vm_compute. Qed.

Lemma quote_char_safe c :
  Py.quote_safe (nat_of_ascii c) = true ->
  Py.quote (String c EmptyString) = String c EmptyString.
Proof. by destruct c as [[] [] [] [] [] [] [] []]; vm_compute. Qed.

(** [X19] The query-encoded title is made of letters, digits, the marks
    [_ . - ~ /] and the percent sign only, so the search address holds no
    space and no character that would end the query; a title made of kept
    characters only is left as it is. *)
Theorem quote_url_safe (s : string) :
  str_forallb url_char (Py.quote s) = true
  /\ (str_forallb (fun c => Py.quote_safe (nat_of_ascii c)) s = true ->
      Py.quote s = s).
Proof.
  split.
  - induction s as [|c s IH]; [done|].
    by rewrite quote_cons, str_forallb_app, quote_char_url, IH.
  - induction s as [|c s IH]; [done|]. cbn [str_forallb].
    intros [Hc Hs]%andb_true_iff.
    by rewrite quote_cons, (quote_char_safe c Hc), (IH Hs).
Qed.

Lemma quote_url_safe_witness :
  Py.quote "Carpenters" = "Carpenters".
Proof. by apply (quote_url_safe "Carpenters"). Defined.

(** ** The link to the wage table *)

Lemma ends_with_unfold suf s :
  ends_with suf s =
  if decide (s = suf) then true
  else match s with
       | EmptyString => false
       | String _ s' => ends_with suf s'
       end.
Proof. by destruct s. Qed.

Lemma ends_with_spec suf s :
  ends_with suf s = true <-> exists a, s = a +:+ suf.
Proof.
  split.
  - induction s as [|c s IH]; rewrite ends_with_unfold;
      (destruct (decide (_ = suf)) as [->|Hne]; [by exists EmptyString|]);
      [done|].
    intros [a ->]%IH. by exists (String c a).
  - intros [a ->]. induction a as [|c a IH]; rewrite ends_with_unfold.
    + by rewrite decide_True.
    + by destruct (decide _).
Qed.

(** [X20] [find_oews_xls_url] raises exactly when no anchor of the page
    has an address that ends in [.xls] or [.xlsx], whatever the letter case;
    otherwise it returns the address of the first such anchor, joined to the
    address of the page. *)
Theorem find_oews_xls_url_first
    (urljoin : string -> string -> string) (hrefs : list string) :
  (find_oews_xls_url urljoin hrefs = RuntimeError <->
   Forall (fun h => is_xls_href h = false) hrefs)
  /\ (forall u, find_oews_xls_url urljoin hrefs = Link u ->
        exists pre h post,
          hrefs = pre ++ h :: post
          /\ Forall (fun h' => is_xls_href h' = false) pre
          /\ is_xls_href h = true
          /\ u = urljoin OEWS_MI_PAGE h)
  /\ (forall h, is_xls_href h = true <->
        exists a, Py.lower h = a +:+ ".xls" \/ Py.lower h = a +:+ ".xlsx").
Proof.
  unfold find_oews_xls_url. split_and!.
  - rewrite <- find_none_iff. by destruct (List.find is_xls_href hrefs).
  - intros u. destruct (List.find is_xls_href hrefs) as [h|] eqn:Hf; [|done].
    intros [= <-]. apply find_first in Hf as (pre & post & -> & Hh & Hpre).
    by exists pre, h, post.
  - intros h. unfold is_xls_href. rewrite orb_true_iff, !ends_with_spec.
    split.
    + intros [[a Ha]|[a Ha]]; exists a; [by left|by right].
    + intros [a [Ha|Ha]]; [left|right]; by exists a.
Qed.

Lemma find_oews_xls_url_first_witness :
  find_oews_xls_url (fun _ href => href) ["/oes/"; "/oes/tables.htm"]
  = RuntimeError
  /\ find_oews_xls_url (fun _ href => href)
       ["/oes/"; "special/OES_MI.XLSX"; "old.xls"]
     = Link "special/OES_MI.XLSX".
Proof.
  split.
  - apply (find_oews_xls_url_first (fun _ href => href)).
    repeat constructor.
  - reflexivity.
Defined.

(** ** Further properties of the extractors *)

(** [X21] Every record of the mapping [load_oews] returns holds the two
    wage fields of one row of the table, a row with a text title whose key
    is the key of the record: fields of different rows are never mixed. *)
Theorem load_oews_record_from_row (df : dataframe)
    (out : gmap string Wage.t) (k : string) (w : Wage.t) :
  let cols := norm <$> columns df in
  load_oews df = Ok out ->
  out !! k = Some w ->
  exists tcol cells t,
    title_col cols = Ok tcol /\ cells ∈ data df
    /\ row_title tcol (align cols cells) = Some t /\ k = norm t
    /\ wage_field (p25_col cols) (align cols cells) = Ok (Wage.p25 w)
    /\ wage_field (med_col cols) (align cols cells) = Ok (Wage.median w).
Proof.
  intros cols Hload Hw. rewrite load_oews_unfold in Hload.
  apply bind_ok in Hload as (tcol & Htcol & Hrows).
  destruct (rows_lookup_inv _ _ _ _ _ _ _ _ Hrows Hw)
    as [He|(r & t & Hin & Ht & -> & Hp & Hm)]; [by rewrite lookup_empty in He|].
  apply list_elem_of_fmap in Hin as (cells & -> & Hin).
  by exists tcol, cells, t.
Qed.

Lemma load_oews_record_from_row_witness :
  let df := {| columns := ["Occupation Title"; "Annual median wage"];
               data := [[Some (VText "Carpenters"); Some (VNumber 50000)]] |} in
  exists tcol cells t,
    title_col (norm <$> columns df) = Ok tcol /\ cells ∈ data df
    /\ row_title tcol (align (norm <$> columns df) cells) = Some t
    /\ "carpenters" = norm t
    /\ wage_field (p25_col (norm <$> columns df))
         (align (norm <$> columns df) cells) = Ok None
    /\ wage_field (med_col (norm <$> columns df))
         (align (norm <$> columns df) cells)
       = Ok (Some (FloatOfNumber 50000)).
Proof.
  intros df.
  apply (load_oews_record_from_row df
           {[ "carpenters" := Wage.mk None (Some (FloatOfNumber 50000)) ]}
           "carpenters" (Wage.mk None (Some (FloatOfNumber 50000))));
    by vm_compute.
Defined.

Lemma words_rstrip s : words (Py.rstrip s) = words s.
Proof.
  induction s as [|c s IH]; [done|].
  cbn [Py.rstrip]. destruct (Py.rstrip s) as [|c' r] eqn:Hr.
  - rewrite (words_cons c s), (rstrip_empty_words _ Hr).
    destruct (Py.is_space c) eqn:Hc; [done|].
    rewrite words_cons, Hc. simpl. by destruct (starts_ws s).
  - destruct (starts_ws_rstrip_cons _ _ _ Hr) as [Hs _].
    rewrite (words_cons c s), (words_cons c (String c' r)), IH.
    cbn [starts_ws]. by rewrite Hs.
Qed.

Lemma words_strip s : words (Py.strip s) = words s.
Proof. unfold Py.strip. by rewrite words_rstrip, words_lstrip. Qed.

(** [X22] The key of a title is its words, in lower case, joined by
    single spaces; and the words of the key are the lower-cased words of
    the title. *)
Theorem norm_is_joined_words (s : string) :
  norm s = join_sp (Py.lower <$> words s)
  /\ words (norm s) = Py.lower <$> words s.
Proof.
  split; [apply norm_words|].
  unfold norm. by rewrite words_sub_ws, words_strip, words_lower.
Qed.

(** ** Composition of [parse_ooh] *)

Lemma parse_ooh_step_union out occ :
  parse_ooh_step out occ = parse_ooh_step ∅ occ ∪ out.
Proof.
  unfold parse_ooh_step. destruct (Py.truthy (occ_key_title occ)); simpl.
  - by rewrite <- insert_union_l, (left_id_L ∅ (∪)).
  - by rewrite (left_id_L ∅ (∪)).
Qed.

Lemma parse_ooh_fold_union occs out :
  fold_left parse_ooh_step occs out = fold_left parse_ooh_step occs ∅ ∪ out.
Proof.
  revert out. induction occs as [|o occs IH]; intros out; simpl.
  - by rewrite (left_id_L ∅ (∪)).
  - rewrite (IH (parse_ooh_step out o)), (IH (parse_ooh_step ∅ o)).
    by rewrite (parse_ooh_step_union out o), (assoc_L (∪)).
Qed.

(** [X23] Parsing two lists of entries put end to end gives the mapping
    of the second list completed by that of the first: on a common key the
    record of the second list is kept. *)
Theorem parse_ooh_app (occs1 occs2 : list occupation) :
  parse_ooh (occs1 ++ occs2) = parse_ooh occs2 ∪ parse_ooh occs1.
Proof.
  unfold parse_ooh. rewrite fold_left_app. apply parse_ooh_fold_union.
Qed.

(** [X24] The estimator gives no estimate exactly when the lower-cased
    input contains none of its eight keywords. *)
Theorem edu_cost_none_iff (r2 r4 : Z) (entry_edu : option string) :
  edu_cost r2 r4 entry_edu = None <->
  Forall (fun kw => Py.contains kw (Py.lower (Py.or_str entry_edu "")) = false)
         ["associate"; "bachelor"; "master"; "doctoral"; "professional";
          "postsecondary nondegree"; "high school"; "no formal"].
Proof.
  unfold edu_cost. set (e := Py.lower (Py.or_str entry_edu "")).
  destruct (Py.truthy e) eqn:Hte; simpl.
  - destruct (Py.contains "associate" e) eqn:H1;
      destruct (Py.contains "bachelor" e) eqn:H2;
      destruct (Py.contains "master" e) eqn:H3;
      destruct (Py.contains "doctoral" e) eqn:H4;
      destruct (Py.contains "professional" e) eqn:H5;
      destruct (Py.contains "postsecondary nondegree" e) eqn:H6;
      destruct (Py.contains "high school" e) eqn:H7;
      destruct (Py.contains "no formal" e) eqn:H8; simpl;
      (split;
       [try done; intros _; by repeat constructor
       |try done; intros H; repeat (apply Forall_cons in H as [? H]);
        congruence]).
  - split; [|done]. intros _. destruct e; [|done]. by repeat constructor.
Qed.

Lemma edu_cost_none_iff_witness :
  edu_cost 5000 15000 (Some "Apprenticeship") = None.
Proof.
  apply (edu_cost_none_iff 5000 15000 (Some "Apprenticeship")).
  by repeat constructor.
Defined.


(** ** Examples of [float] *)

Example float_keeps_separators :
  Py.is_float_literal (String (ascii_of_nat 28) "12") = false
  /\ Py.is_float_literal (String (ascii_of_nat 160) "12 ") = true.
Proof. by vm_compute. Qed.

Example float_of_huge_int :
  py_float (VNumber (inject_Z (10 ^ 400))) = Raise OverflowError
  /\ py_float (VNumber (inject_Z (2 ^ 1024 - 2 ^ 970 - 1)))
     = Ok (FloatOfNumber (inject_Z (2 ^ 1024 - 2 ^ 970 - 1))).
Proof. by vm_compute. Qed.
